(** * Stored-procedure executor (main.py): model and verification

    Shallow embedding of [execute_stored_procedure] and
    [list_stored_procedures] of [main.py].

    - A Python [str] is a [string]: the sequence of its code points, for
      code points below 256.
    - Exceptions are instances of subclasses of [Exception], the only ones
      the handlers of [execute_stored_procedure] name; each carries the text
      [str(e)].
    - pyodbc is an interface the program calls ([Driver]); every call may
      return or raise, and may change the state of the database.
    - The text of floats and of containers, and the message text of
      exceptions raised inside builtins, belong to the Python installation
      ([Platform]); [str], [int], [float], [json.dumps] and
      [dateutil.parser.isoparse] are modelled on the values of [pyval]. *)

From Stdlib Require Import ZArith List String Ascii Bool Lia.
From Stdlib Require Import DecimalString DecimalZ.
From Stdlib Require Import Floats.SpecFloat.
Import ListNotations.

Set Warnings "-register-all".

Local Open Scope string_scope.
Local Open Scope Z_scope.

(** ** Exceptions *)

(** The exception classes the program can tell apart.  [PyodbcError] is
    [pyodbc.Error] with its subclasses, [ValueError] includes its subclasses,
    and [Exception] stands for every other subclass of [Exception]. *)
Inductive exc_type : Type :=
| Exception
| PyodbcError
| ValueError
| TypeError
| OverflowError
| UnboundLocalError.

Definition exc_type_eqb (a b : exc_type) : bool :=
  match a, b with
  | Exception, Exception
  | PyodbcError, PyodbcError
  | ValueError, ValueError
  | TypeError, TypeError
  | OverflowError, OverflowError
  | UnboundLocalError, UnboundLocalError => true
  | _, _ => false
  end.

(** [issubclass a b]: every class is a subclass of [Exception]; the others are
    unrelated to each other. *)
Definition issubclass (a b : exc_type) : bool :=
  match b with
  | Exception => true
  | _ => exc_type_eqb a b
  end.

(** An exception instance: its class and [str(e)]. *)
Record exn : Type := mkExn { etype : exc_type; detail : string }.

(** The outcome of a Python expression: a value, or a raised exception. *)
Inductive outcome (A : Type) : Type :=
| Return (a : A)
| Raise (e : exn).

Arguments Return {A} a.
Arguments Raise {A} e.

Definition obind {A B : Type} (o : outcome A) (k : A -> outcome B) : outcome B :=
  match o with
  | Return a => k a
  | Raise e => Raise e
  end.

Definition omap {A B : Type} (f : A -> B) (o : outcome A) : outcome B :=
  obind o (fun a => Return (f a)).

(** ** Python values *)

(** [datetime.datetime], as [isoparse] builds it. *)
Record datetime : Type := mkDatetime {
  year : Z; month : Z; day : Z;
  hour : Z; minute : Z; second : Z; microsecond : Z;
  utcoffset : option Z
}.

(** The values a parameter can carry.  A [dict] is the list of its items in
    insertion order. *)
Inductive pyval : Type :=
| PyNone
| PyBool (b : bool)
| PyInt (z : Z)
| PyFloat (f : spec_float)
| PyStr (s : string)
| PyList (xs : list pyval)
| PyTuple (xs : list pyval)
| PyDict (items : list (pyval * pyval))
| PyDatetime (d : datetime).

(** [type(v).__name__] *)
Definition type_name (v : pyval) : string :=
  match v with
  | PyNone => "NoneType"
  | PyBool _ => "bool"
  | PyInt _ => "int"
  | PyFloat _ => "float"
  | PyStr _ => "str"
  | PyList _ => "list"
  | PyTuple _ => "tuple"
  | PyDict _ => "dict"
  | PyDatetime _ => "datetime"
  end.

(** ** The Python installation *)

(** The builtins modelled below that can raise: [str], [int], [json.dumps]
    on a value and on a key, [hash], [float], [int] on [bytes] (its argument
    given as the string of the same code points), the constructors of
    [datetime] and [date] (their arguments given as a tuple), and [len]. *)
Inductive builtin : Type :=
| BStr | BInt | BJson | BJsonKey | BHash | BFloat | BIntBytes | BDatetime | BLen.

Record Platform : Type := mkPlatform {
  (** [str(e)] of the exception a builtin raises on an offending object *)
  exc_text : builtin -> pyval -> string;
  (** [float.__repr__] of a finite float *)
  float_repr : spec_float -> string;
  (** [str(x)] for a float, a container or a datetime *)
  object_str : pyval -> outcome string;
  (** the exception of [d[0:4]] on a dict [d]: a [TypeError] while slices
      cannot be hashed, a [KeyError] where they can (from Python 3.12 on) *)
  dict_slice_error : exn
}.

(** ** Characters and strings *)

Definition code (c : ascii) : nat := nat_of_ascii c.

Definition chr (n : nat) : ascii := ascii_of_nat n.

Definition is_digit (c : ascii) : bool :=
  ((48 <=? code c) && (code c <=? 57))%nat.

Definition digit_value (c : ascii) : Z := Z.of_nat (code c - 48).

(** The value of a string of decimal digits. *)
Fixpoint horner (s : string) (acc : Z) : Z :=
  match s with
  | EmptyString => acc
  | String c r => horner r (10 * acc + digit_value c)
  end.

(** [Py_ISSPACE]: tab, line feed, vertical tab, form feed, carriage return
    and space. *)
Definition py_isspace (c : ascii) : bool :=
  ((9 <=? code c) && (code c <=? 13) || (code c =? 32))%nat.

(** [Py_UNICODE_ISSPACE] on the code points from 127 to 255: next line and
    no-break space. *)
Definition unicode_isspace_high (c : ascii) : bool :=
  ((code c =? 133) || (code c =? 160))%nat.

Definition is_ascii_char (c : ascii) : bool := (code c <? 128)%nat.

Fixpoint string_forallb (p : ascii -> bool) (s : string) : bool :=
  match s with
  | EmptyString => true
  | String c r => p c && string_forallb p r
  end.

Fixpoint string_existsb (p : ascii -> bool) (s : string) : bool :=
  match s with
  | EmptyString => false
  | String c r => p c || string_existsb p r
  end.

Fixpoint drop_while (p : ascii -> bool) (s : string) : string :=
  match s with
  | EmptyString => EmptyString
  | String c r => if p c then drop_while p r else s
  end.

Definition hex_digit (n : nat) : ascii :=
  if (n <? 10)%nat then chr (48 + n) else chr (87 + n).

(** Two lower-case hexadecimal digits of a code point below 256. *)
Definition hex2 (c : ascii) : string :=
  String (hex_digit (code c / 16)) (String (hex_digit (code c mod 16)) EmptyString).

(** Decimal text of an integer, as [int.__repr__] writes it. *)
Definition decimal (z : Z) : string := NilZero.string_of_int (Z.to_int z).

(** Number of decimal digits of an integer. *)
Definition ndigits (z : Z) : nat :=
  String.length (NilZero.string_of_uint (N.to_uint (Z.abs_N z))).

(** [sys.int_max_str_digits], at its default. *)
Definition int_max_str_digits : nat := 4300.

(** ** [int.__repr__], bounded by the digit limit *)

Definition int_repr (P : Platform) (b : builtin) (z : Z) : outcome string :=
  if (int_max_str_digits <? ndigits z)%nat
  then Raise (mkExn ValueError (exc_text P b (PyInt z)))
  else Return (decimal z).

(** ** [str(x)] *)

Definition py_str (P : Platform) (x : pyval) : outcome pyval :=
  match x with
  | PyStr s => Return (PyStr s)
  | PyNone => Return (PyStr "None")
  | PyBool b => Return (PyStr (if b then "True" else "False"))
  | PyInt z => omap PyStr (int_repr P BStr z)
  | _ => omap PyStr (object_str P x)
  end.

(** ** [int(x)] *)

(** [_PyUnicode_TransformDecimalAndSpaceToASCII]: an ASCII string is taken as
    it is; otherwise code points below 127 are kept, a Unicode space becomes
    a space, and the first other code point (none from 127 to 255 is a
    decimal digit) becomes a question mark that ends the buffer. *)
Fixpoint transform_high (s : string) : string :=
  match s with
  | EmptyString => EmptyString
  | String c r =>
      if (code c <? 127)%nat then String c (transform_high r)
      else if unicode_isspace_high c then String " "%char (transform_high r)
      else String "?"%char EmptyString
  end.

Definition transform_decimal_and_space (s : string) : string :=
  if string_forallb is_ascii_char s then s else transform_high s.

(** The scan of [long_from_string_base]: digits and underscores, no two
    underscores in a row and none at the end.  Returns the value and the
    number of the digits read, and the rest of the text. *)
Fixpoint scan_digits (s : string) (prev_underscore : bool) (acc : Z) (n : nat)
  : option (Z * nat * string) :=
  match s with
  | EmptyString => if prev_underscore then None else Some (acc, n, EmptyString)
  | String c r =>
      if is_digit c then scan_digits r false (10 * acc + digit_value c) (S n)
      else if Ascii.eqb c "_"%char then
        if prev_underscore then None else scan_digits r true acc n
      else if prev_underscore then None else Some (acc, n, s)
  end.

Definition is_empty (s : string) : bool :=
  match s with
  | EmptyString => true
  | String _ _ => false
  end.

(** [long_from_string_base] after the sign: no underscore in front, at
    least one digit, only spaces behind, and no more digits than the limit.
    [None] where [int] raises [ValueError]. *)
Definition parse_digits (negative : bool) (s : string) : option Z :=
  match s with
  | String c _ =>
      if Ascii.eqb c "_"%char then None
      else
        match scan_digits s false 0 0 with
        | None => None
        | Some (v, n, rest) =>
            if (n =? 0)%nat then None
            else if negb (is_empty (drop_while py_isspace rest)) then None
            else if (int_max_str_digits <? n)%nat then None
            else Some (if negative then - v else v)
        end
  | EmptyString => None
  end.

(** [PyLong_FromString(buffer, 10)] on the ASCII buffer: spaces, a sign,
    then the digits. *)
Definition parse_ascii (buffer : string) : option Z :=
  match drop_while py_isspace buffer with
  | String c r =>
      if Ascii.eqb c "+"%char then parse_digits false r
      else if Ascii.eqb c "-"%char then parse_digits true r
      else parse_digits false (String c r)
  | EmptyString => None
  end.

(** [PyLong_FromUnicodeObject(u, 10)] *)
Definition parse_int (s : string) : option Z :=
  parse_ascii (transform_decimal_and_space s).

(** [float.__trunc__] *)
Definition float_trunc (P : Platform) (f : spec_float) : outcome Z :=
  match f with
  | S754_zero _ => Return 0
  | S754_infinity _ => Raise (mkExn OverflowError (exc_text P BInt (PyFloat f)))
  | S754_nan => Raise (mkExn ValueError (exc_text P BInt (PyFloat f)))
  | S754_finite s m e =>
      let a := Z.shiftl (Zpos m) e in
      Return (if s then - a else a)
  end.

Definition py_int (P : Platform) (x : pyval) : outcome pyval :=
  match x with
  | PyInt z => Return (PyInt z)
  | PyBool b => Return (PyInt (if b then 1 else 0))
  | PyFloat f => omap PyInt (float_trunc P f)
  | PyStr s =>
      match parse_int s with
      | Some z => Return (PyInt z)
      | None => Raise (mkExn ValueError (exc_text P BInt x))
      end
  | _ => Raise (mkExn TypeError (exc_text P BInt x))
  end.

(** ** [float(x)] *)

(** The double nearest to [m * 10 ^ e], ties to even, with the sign given;
    infinite beyond the range of doubles.  A number of [d] digits times
    [10 ^ e] is at least [10 ^ (d - 1 + e)] and below [10 ^ (d + e)]: outside
    [10 ^ -330 .. 10 ^ 310] it rounds to infinity or to zero. *)
Definition decimal_to_double (negative : bool) (m e : Z) : spec_float :=
  match m with
  | Zpos p =>
      let d := Z.of_nat (ndigits m) in
      if 310 <=? d - 1 + e then S754_infinity negative
      else if d + e <=? -330 then S754_zero negative
      else if 0 <=? e then
        binary_normalize 53 1024 (if negative then - (m * 10 ^ e) else m * 10 ^ e) 0 negative
      else
        SFdiv 53 1024 (S754_finite negative p 0)
                      (S754_finite false (Z.to_pos (10 ^ (- e))) 0)
  | _ => S754_zero negative
  end.

(** [Py_TOLOWER] *)
Definition to_lower (c : ascii) : ascii :=
  if ((65 <=? code c) && (code c <=? 90))%nat then chr (code c + 32) else c.

(** [case_insensitive_match]: what follows [word] at the front of [s]. *)
Fixpoint match_word (word s : string) : option string :=
  match word, s with
  | EmptyString, _ => Some s
  | String w word', String c r =>
      if Ascii.eqb (to_lower c) w then match_word word' r else None
  | String _ _, EmptyString => None
  end.

(** An optional sign at the front. *)
Definition take_sign (s : string) : bool * string :=
  match s with
  | String c r =>
      if Ascii.eqb c "-"%char then (true, r)
      else if Ascii.eqb c "+"%char then (false, r)
      else (false, s)
  | EmptyString => (false, s)
  end.

(** The digits at the front, and what follows them. *)
Fixpoint span_digits (s : string) : string * string :=
  match s with
  | String c r =>
      if is_digit c then let '(d, rest) := span_digits r in (String c d, rest)
      else (EmptyString, s)
  | EmptyString => (EmptyString, EmptyString)
  end.

(** The exponent of [_Py_dg_strtod]: [e] or [E], a sign, digits.  Without a
    digit nothing is read. *)
Definition take_exponent (s : string) : Z * string :=
  match s with
  | String c r =>
      if Ascii.eqb (to_lower c) "e"%char then
        let '(negative, r1) := take_sign r in
        let '(d, r2) := span_digits r1 in
        if is_empty d then (0, s)
        else (if negative then - horner d 0 else horner d 0, r2)
      else (0, s)
  | EmptyString => (0, s)
  end.

(** [_Py_dg_strtod], for texts of fewer than [10 ^ 9] characters: a sign,
    digits, a point and digits, an exponent; at least one digit before the
    exponent.  The double and what follows the number. *)
Definition strtod (s : string) : option (spec_float * string) :=
  let '(negative, s1) := take_sign s in
  let '(int_part, r1) := span_digits s1 in
  let '(frac_part, r2) :=
    match r1 with
    | String c r => if Ascii.eqb c "."%char then span_digits r else (EmptyString, r1)
    | EmptyString => (EmptyString, r1)
    end in
  if is_empty (int_part ++ frac_part) then None
  else
    let '(e, r3) := take_exponent r2 in
    Some (decimal_to_double negative (horner (int_part ++ frac_part) 0)
                            (e - Z.of_nat (String.length frac_part)),
          r3).

(** [_Py_parse_inf_or_nan] *)
Definition parse_inf_or_nan (s : string) : option (spec_float * string) :=
  let '(negative, s1) := take_sign s in
  match match_word "inf" s1 with
  | Some r =>
      Some (S754_infinity negative,
            match match_word "inity" r with
            | Some r' => r'
            | None => r
            end)
  | None =>
      match match_word "nan" s1 with
      | Some r => Some (S754_nan, r)
      | None => None
      end
  end.

(** [_PyOS_ascii_strtod] *)
Definition ascii_strtod (s : string) : option (spec_float * string) :=
  match strtod s with
  | Some x => Some x
  | None => parse_inf_or_nan s
  end.

(** [float_from_string_inner]: spaces, the number, spaces. *)
Definition float_from_string_inner (s : string) : option spec_float :=
  match ascii_strtod (drop_while py_isspace s) with
  | Some (x, rest) => if is_empty (drop_while py_isspace rest) then Some x else None
  | None => None
  end.

(** [_Py_string_to_number_with_underscores]: an underscore stands between
    two digits, and is left out. *)
Fixpoint strip_underscores (prev : ascii) (s : string) : option string :=
  match s with
  | EmptyString => if Ascii.eqb prev "_"%char then None else Some EmptyString
  | String c r =>
      if Ascii.eqb c "_"%char then
        if is_digit prev then strip_underscores c r else None
      else if Ascii.eqb prev "_"%char && negb (is_digit c) then None
      else option_map (String c) (strip_underscores c r)
  end.

(** [PyFloat_FromString] on a [str]: [None] where it raises [ValueError]. *)
Definition parse_float (s : string) : option spec_float :=
  match strip_underscores (chr 0) (transform_decimal_and_space s) with
  | Some buffer => float_from_string_inner buffer
  | None => None
  end.

(** [PyLong_AsDouble] *)
Definition int_to_double (z : Z) : spec_float := binary_normalize 53 1024 z 0 false.

Definition py_float (P : Platform) (x : pyval) : outcome pyval :=
  match x with
  | PyFloat f => Return (PyFloat f)
  | PyInt z =>
      match int_to_double z with
      | S754_infinity _ => Raise (mkExn OverflowError (exc_text P BFloat x))
      | f => Return (PyFloat f)
      end
  | PyBool b => Return (PyFloat (int_to_double (if b then 1 else 0)))
  | PyStr s =>
      match parse_float s with
      | Some f => Return (PyFloat f)
      | None => Raise (mkExn ValueError (exc_text P BFloat x))
      end
  | _ => Raise (mkExn TypeError (exc_text P BFloat x))
  end.

(** ** [datetime] *)

(** [calendar.isleap] *)
Definition isleap (y : Z) : bool :=
  (y mod 4 =? 0) && (negb (y mod 100 =? 0) || (y mod 400 =? 0)).

Definition days_in_month (y m : Z) : Z :=
  if m =? 2 then (if isleap y then 29 else 28)
  else if (m =? 4) || (m =? 6) || (m =? 9) || (m =? 11) then 30
  else 31.

(** The days of the year [y] before the month [m]. *)
Definition days_before_month (y m : Z) : Z :=
  fold_right Z.add 0 (map (days_in_month y) (map Z.of_nat (seq 1 (Z.to_nat (m - 1))))).

(** The days before January 1st of the year [y]. *)
Definition days_before_year (y : Z) : Z :=
  (y - 1) * 365 + (y - 1) / 4 - (y - 1) / 100 + (y - 1) / 400.

(** [date.toordinal]: January 1st of the year 1 is day 1. *)
Definition toordinal (y m d : Z) : Z :=
  days_before_year y + days_before_month y m + d.

(** [date.fromordinal], for an ordinal from 1 on. *)
Definition fromordinal (n : Z) : Z * Z * Z :=
  let n0 := n - 1 in
  let n400 := n0 / 146097 in
  let r400 := n0 mod 146097 in
  let n100 := Z.min 3 (r400 / 36524) in
  let r100 := r400 - n100 * 36524 in
  let n4 := r100 / 1461 in
  let r4 := r100 mod 1461 in
  let n1 := Z.min 3 (r4 / 365) in
  let r1 := r4 - n1 * 365 in
  let y := n400 * 400 + n100 * 100 + n4 * 4 + n1 + 1 in
  let m :=
    fold_right (fun k found => if days_before_month y k <=? r1 then Z.max k found else found)
               1 (map Z.of_nat (seq 1 12)) in
  (y, m, r1 - days_before_month y m + 1).

Definition max_ordinal : Z := 3652059.

(** The checks of the constructors of [date] and [datetime]. *)
Definition valid_date (y m d : Z) : bool :=
  (1 <=? y) && (y <=? 9999) && (1 <=? m) && (m <=? 12)
  && (1 <=? d) && (d <=? days_in_month y m).

Definition valid_time (h mi s us : Z) : bool :=
  (0 <=? h) && (h <=? 23) && (0 <=? mi) && (mi <=? 59)
  && (0 <=? s) && (s <=? 59) && (0 <=? us) && (us <=? 999999).

Definition date_overflow : exn := mkExn OverflowError "date value out of range".

(** [date(y, m, d)] *)
Definition new_date (P : Platform) (y m d : Z) : outcome (Z * Z * Z) :=
  if valid_date y m d then Return (y, m, d)
  else Raise (mkExn ValueError (exc_text P BDatetime (PyTuple [PyInt y; PyInt m; PyInt d]))).

(** [date + timedelta(days=k)] *)
Definition date_add (ymd : Z * Z * Z) (k : Z) : outcome (Z * Z * Z) :=
  let '(y, m, d) := ymd in
  let o := toordinal y m d + k in
  if (0 <? o) && (o <=? max_ordinal) then Return (fromordinal o) else Raise date_overflow.

(** [date.isoweekday]: Monday is 1. *)
Definition isoweekday (ymd : Z * Z * Z) : Z :=
  let '(y, m, d) := ymd in (toordinal y m d + 6) mod 7 + 1.

(** [datetime(y, m, d, h, mi, s, us, tzinfo)] *)
Definition new_datetime (P : Platform) (y m d h mi s us : Z) (tz : option Z)
  : outcome datetime :=
  if valid_date y m d && valid_time h mi s us then Return (mkDatetime y m d h mi s us tz)
  else Raise (mkExn ValueError
                (exc_text P BDatetime
                   (PyTuple [PyInt y; PyInt m; PyInt d; PyInt h; PyInt mi; PyInt s; PyInt us]))).

(** ** [dateutil.parser.isoparse(x)] *)

(** [b[i:j]] *)
Definition slice (b : string) (i j : nat) : string := substring i (j - i) b.

(** [b[i:]] *)
Definition slice_from (b : string) (i : nat) : string :=
  substring i (String.length b - i) b.

(** [int(b)] on [bytes] *)
Definition int_of_bytes (P : Platform) (b : string) : outcome Z :=
  match parse_ascii b with
  | Some z => Return z
  | None => Raise (mkExn ValueError (exc_text P BIntBytes (PyStr b)))
  end.

Definition value_error {A : Type} (text : string) : outcome A :=
  Raise (mkExn ValueError text).

Section Isoparser.

Variable P : Platform.

(** [_parse_isodate_common]: the components and the position reached. *)
Definition parse_isodate_common (dt_str : string) : outcome (Z * Z * Z * nat) :=
  let len_str := String.length dt_str in
  if (len_str <? 4)%nat then value_error "ISO string too short"
  else
    obind (int_of_bytes P (slice dt_str 0 4)) (fun year =>
    let pos := 4%nat in
    if (len_str <=? pos)%nat then Return (year, 1, 1, pos)
    else
      let has_sep := String.eqb (slice dt_str pos (pos + 1)) "-" in
      let pos := if has_sep then (pos + 1)%nat else pos in
      if (len_str - pos <? 2)%nat then value_error "Invalid common month"
      else
        obind (int_of_bytes P (slice dt_str pos (pos + 2))) (fun month =>
        let pos := (pos + 2)%nat in
        if (len_str <=? pos)%nat then
          if has_sep then Return (year, month, 1, pos)
          else value_error "Invalid ISO format"
        else
          obind (if has_sep then
                   if String.eqb (slice dt_str pos (pos + 1)) "-"
                   then Return (pos + 1)%nat
                   else value_error "Invalid separator in ISO string"
                 else Return pos) (fun pos =>
          if (len_str - pos <? 2)%nat then value_error "Invalid common day"
          else
            obind (int_of_bytes P (slice dt_str pos (pos + 2))) (fun day =>
            Return (year, month, day, (pos + 2)%nat))))).

(** [_calculate_weekdate] *)
Definition calculate_weekdate (year week day : Z) : outcome (Z * Z * Z) :=
  if negb ((0 <? week) && (week <? 54)) then
    value_error ("Invalid week: " ++ decimal week)
  else if negb ((0 <? day) && (day <? 8)) then
    value_error ("Invalid weekday: " ++ decimal day)
  else
    obind (new_date P year 1 4) (fun jan_4 =>
    obind (date_add jan_4 (- (isoweekday jan_4 - 1))) (fun week_1 =>
    date_add week_1 ((week - 1) * 7 + (day - 1)))).

(** [_parse_isodate_uncommon] *)
Definition parse_isodate_uncommon (dt_str : string) : outcome (Z * Z * Z * nat) :=
  let len_str := String.length dt_str in
  if (len_str <? 4)%nat then value_error "ISO string too short"
  else
    obind (int_of_bytes P (slice dt_str 0 4)) (fun year =>
    let has_sep := String.eqb (slice dt_str 4 5) "-" in
    let pos := if has_sep then 5%nat else 4%nat in
    if String.eqb (slice dt_str pos (pos + 1)) "W" then
      let pos := (pos + 1)%nat in
      obind (int_of_bytes P (slice dt_str pos (pos + 2))) (fun weekno =>
      let pos := (pos + 2)%nat in
      obind (if (pos <? len_str)%nat then
               if negb (Bool.eqb (String.eqb (slice dt_str pos (pos + 1)) "-") has_sep)
               then value_error "Inconsistent use of dash separator"
               else
                 let pos := if has_sep then (pos + 1)%nat else pos in
                 obind (int_of_bytes P (slice dt_str pos (pos + 1))) (fun dayno =>
                 Return (dayno, (pos + 1)%nat))
             else Return (1, pos)) (fun '(dayno, pos) =>
      obind (calculate_weekdate year weekno dayno) (fun '(y, m, d) =>
      Return (y, m, d, pos))))
    else if (len_str - pos <? 3)%nat then value_error "Invalid ordinal day"
    else
      obind (int_of_bytes P (slice dt_str pos (pos + 3))) (fun ordinal_day =>
      let pos := (pos + 3)%nat in
      if (ordinal_day <? 1) || (365 + (if isleap year then 1 else 0) <? ordinal_day) then
        value_error ("Invalid ordinal day " ++ decimal ordinal_day
                       ++ " for year " ++ decimal year)
      else
        obind (new_date P year 1 1) (fun first =>
        obind (date_add first (ordinal_day - 1)) (fun '(y, m, d) =>
        Return (y, m, d, pos))))).

(** [_parse_isodate]: the uncommon formats are tried when the common one
    raises [ValueError], the only class it raises. *)
Definition parse_isodate (dt_str : string) : outcome (Z * Z * Z * nat) :=
  match parse_isodate_common dt_str with
  | Return r => Return r
  | Raise _ => parse_isodate_uncommon dt_str
  end.

(** [_parse_tzstr]: the offset in seconds; [tz.UTC] is the offset 0. *)
Definition parse_tzstr (tzstr : string) : outcome Z :=
  if String.eqb tzstr "Z" || String.eqb tzstr "z" then Return 0
  else
    let n := String.length tzstr in
    if negb ((n =? 3) || (n =? 5) || (n =? 6))%nat then
      value_error "Time zone offset must be 1, 3, 5 or 6 characters"
    else
      obind (if String.eqb (slice tzstr 0 1) "-" then Return (-1)
             else if String.eqb (slice tzstr 0 1) "+" then Return 1
             else value_error "Time zone offset requires sign") (fun mult =>
      obind (int_of_bytes P (slice tzstr 1 3)) (fun hours =>
      obind (if (n =? 3)%nat then Return 0
             else int_of_bytes P
                    (slice_from tzstr (if String.eqb (slice tzstr 3 4) ":" then 4 else 3)))
            (fun minutes =>
      if (hours =? 0) && (minutes =? 0) then Return 0
      else if 59 <? minutes then value_error "Invalid minutes in time zone offset"
      else if 23 <? hours then value_error "Invalid hours in time zone offset"
      else Return (mult * (hours * 60 + minutes) * 60)))).

(** The components of [_parse_isotime]: hour, minute, second, microsecond
    and the offset of the time zone. *)
Record time_components : Type := mkTime {
  t_hour : Z; t_minute : Z; t_second : Z; t_microsecond : Z; t_offset : option Z
}.

(** The match of [[\.,]([0-9]+)] at the front: the digits. *)
Definition match_fraction (s : string) : option string :=
  match s with
  | String c r =>
      if Ascii.eqb c "."%char || Ascii.eqb c ","%char then
        let '(d, _) := span_digits r in
        if is_empty d then None else Some d
      else None
  | EmptyString => None
  end.

(** The loop of [_parse_isotime]: [left] turns remain, [comp] having taken
    the value [5 - left] before this one; the loop ends when [pos] reaches
    the end or no turn is left. *)
Fixpoint isotime_loop (left : nat) (timestr : string) (pos : nat) (has_sep : bool)
  (c : time_components) : outcome (time_components * nat) :=
  match left with
  | O => Return (c, pos)
  | S left' =>
      let len_str := String.length timestr in
      if negb (pos <? len_str)%nat then Return (c, pos)
      else
        let comp := (6 - left)%nat in
        let here := slice timestr pos (pos + 1) in
        if string_existsb (fun k => String.eqb here (String k EmptyString)) "-+Zz" then
          obind (parse_tzstr (slice_from timestr pos)) (fun offset =>
          Return (mkTime (t_hour c) (t_minute c) (t_second c) (t_microsecond c)
                         (Some offset), len_str))
        else
          obind (if (comp =? 1)%nat && String.eqb here ":" then Return (true, (pos + 1)%nat)
                 else if (comp =? 2)%nat && has_sep then
                   if String.eqb here ":" then Return (has_sep, (pos + 1)%nat)
                   else value_error "Inconsistent use of colon separator"
                 else Return (has_sep, pos)) (fun '(has_sep, pos) =>
          if (comp <? 3)%nat then
            obind (int_of_bytes P (slice timestr pos (pos + 2))) (fun v =>
            isotime_loop left' timestr (pos + 2)%nat has_sep
              (match comp with
               | O => mkTime v (t_minute c) (t_second c) (t_microsecond c) (t_offset c)
               | S O => mkTime (t_hour c) v (t_second c) (t_microsecond c) (t_offset c)
               | _ => mkTime (t_hour c) (t_minute c) v (t_microsecond c) (t_offset c)
               end))
          else if (comp =? 3)%nat then
            match match_fraction (slice_from timestr pos) with
            | None => isotime_loop left' timestr pos has_sep c
            | Some digits =>
                let us_str := slice digits 0 6 in
                obind (int_of_bytes P us_str) (fun v =>
                isotime_loop left' timestr (pos + 1 + String.length digits)%nat has_sep
                  (mkTime (t_hour c) (t_minute c) (t_second c)
                          (v * 10 ^ (6 - Z.of_nat (String.length us_str))) (t_offset c)))
            end
          else isotime_loop left' timestr pos has_sep c)
  end.

(** [_parse_isotime] *)
Definition parse_isotime (timestr : string) : outcome time_components :=
  let len_str := String.length timestr in
  if (len_str <? 2)%nat then value_error "ISO time too short"
  else
    obind (isotime_loop 6 timestr 0 false (mkTime 0 0 0 0 None)) (fun '(c, pos) =>
    if (pos <? len_str)%nat then value_error "Unused components in ISO string"
    else if (t_hour c =? 24)
            && negb ((t_minute c =? 0) && (t_second c =? 0) && (t_microsecond c =? 0))
    then value_error "Hour may only be 24 at 24:00:00.000"
    else Return c).

(** [isoparse] on the bytes of an ASCII string. *)
Definition isoparse_bytes (dt_str : string) : outcome datetime :=
  obind (parse_isodate dt_str) (fun '(y, m, d, pos) =>
  if (pos <? String.length dt_str)%nat then
    obind (parse_isotime (slice_from dt_str (pos + 1))) (fun c =>
    if t_hour c =? 24 then
      obind (new_datetime P y m d 0 (t_minute c) (t_second c) (t_microsecond c)
                          (t_offset c)) (fun dt =>
      obind (date_add (year dt, month dt, day dt) 1) (fun '(y', m', d') =>
      Return (mkDatetime y' m' d' (hour dt) (minute dt) (second dt) (microsecond dt)
                         (utcoffset dt))))
    else
      new_datetime P y m d (t_hour c) (t_minute c) (t_second c) (t_microsecond c)
                   (t_offset c))
  else new_datetime P y m d 0 0 0 0 None).

(** [isoparse(x)].  A [str] is encoded to ASCII first; of the other values
    the lists, tuples and dicts have a length, and [x[0:4]] is a list or a
    tuple, which [int] refuses, or fails on a dict as the installation has
    it. *)
Definition isoparse (x : pyval) : outcome datetime :=
  match x with
  | PyStr s =>
      if string_forallb is_ascii_char s then isoparse_bytes s
      else value_error "ISO-8601 strings should contain only ASCII characters"
  | PyList xs =>
      if (List.length xs <? 4)%nat then value_error "ISO string too short"
      else Raise (mkExn TypeError (exc_text P BInt (PyList (firstn 4 xs))))
  | PyTuple xs =>
      if (List.length xs <? 4)%nat then value_error "ISO string too short"
      else Raise (mkExn TypeError (exc_text P BInt (PyTuple (firstn 4 xs))))
  | PyDict items =>
      if (List.length items <? 4)%nat then value_error "ISO string too short"
      else Raise (dict_slice_error P)
  | _ => Raise (mkExn TypeError (exc_text P BLen x))
  end.

End Isoparser.

Definition py_isoparse (P : Platform) (x : pyval) : outcome pyval :=
  omap PyDatetime (isoparse P x).

(** ** [json.dumps(x, ensure_ascii=...)] *)

Definition dquote : string := String "034"%char EmptyString.

Definition backslash : string := String "092"%char EmptyString.

(** [ESCAPE_DCT] and the two escape patterns of [json.encoder]: the quote,
    the backslash and the control characters are always escaped; with
    [ensure_ascii] so is everything outside space..tilde. *)
Definition json_escape_char (ensure_ascii : bool) (c : ascii) : string :=
  let n := code c in
  if (n =? 34)%nat then backslash ++ dquote
  else if (n =? 92)%nat then backslash ++ backslash
  else if (n =? 10)%nat then backslash ++ "n"
  else if (n =? 13)%nat then backslash ++ "r"
  else if (n =? 9)%nat then backslash ++ "t"
  else if (n =? 8)%nat then backslash ++ "b"
  else if (n =? 12)%nat then backslash ++ "f"
  else if (n <? 32)%nat then backslash ++ "u00" ++ hex2 c
  else if ensure_ascii && (126 <? n)%nat then backslash ++ "u00" ++ hex2 c
  else String c EmptyString.

Fixpoint json_escape (ensure_ascii : bool) (s : string) : string :=
  match s with
  | EmptyString => EmptyString
  | String c r => json_escape_char ensure_ascii c ++ json_escape ensure_ascii r
  end.

(** [encode_basestring] / [encode_basestring_ascii] *)
Definition json_string (ensure_ascii : bool) (s : string) : string :=
  dquote ++ json_escape ensure_ascii s ++ dquote.

(** [floatstr], with [allow_nan=True] *)
Definition json_float (P : Platform) (f : spec_float) : string :=
  match f with
  | S754_nan => "NaN"
  | S754_infinity false => "Infinity"
  | S754_infinity true => "-Infinity"
  | _ => float_repr P f
  end.

(** The text of a dict key; other keys raise [TypeError] ([skipkeys=False]). *)
Definition json_key (P : Platform) (k : pyval) : outcome string :=
  match k with
  | PyStr s => Return s
  | PyFloat f => Return (json_float P f)
  | PyBool b => Return (if b then "true" else "false")
  | PyNone => Return "null"
  | PyInt z => int_repr P BJson z
  | _ => Raise (mkExn TypeError (exc_text P BJsonKey k))
  end.

(** The outcomes of a sequence of expressions evaluated in order: the first
    exception ends it. *)
Fixpoint sequence {A : Type} (l : list (outcome A)) : outcome (list A) :=
  match l with
  | [] => Return []
  | o :: r => obind o (fun a => obind (sequence r) (fun rest => Return (a :: rest)))
  end.

(** The encoder, with the default separators [", "] and [": "] and no
    indentation.  Items are written in order and the first failure ends the
    call; a tuple is written as a list. *)
Fixpoint json_encode (P : Platform) (ensure_ascii : bool) (v : pyval) : outcome string :=
  match v with
  | PyNone => Return "null"
  | PyBool b => Return (if b then "true" else "false")
  | PyInt z => int_repr P BJson z
  | PyFloat f => Return (json_float P f)
  | PyStr s => Return (json_string ensure_ascii s)
  | PyList xs | PyTuple xs =>
      omap (fun ts => "[" ++ String.concat ", " ts ++ "]")
           (sequence (map (json_encode P ensure_ascii) xs))
  | PyDict items =>
      omap (fun ts => "{" ++ String.concat ", " ts ++ "}")
           (sequence
              (map (fun '(k, x) =>
                      obind (json_key P k) (fun ks =>
                      obind (json_encode P ensure_ascii x) (fun t =>
                      Return (json_string ensure_ascii ks ++ ": " ++ t))))
                   items))
  | PyDatetime _ => Raise (mkExn TypeError (exc_text P BJson v))
  end.

Definition json_dumps (P : Platform) (ensure_ascii : bool) (x : pyval) : outcome pyval :=
  omap PyStr (json_encode P ensure_ascii x).

(** ** Hashing, for the lookup in [type_mapping] *)

(** The first unhashable object met by [hash(v)]: a list or a dict, alone or
    inside tuples. *)
Fixpoint unhashable (v : pyval) : option pyval :=
  match v with
  | PyList _ | PyDict _ => Some v
  | PyTuple xs =>
      (fix first (l : list pyval) : option pyval :=
         match l with
         | [] => None
         | x :: r =>
             match unhashable x with
             | Some u => Some u
             | None => first r
             end
         end) xs
  | _ => None
  end.

(** ** pyodbc *)

(** A row of the catalog query: its [name] column. *)
Record row : Type := mkRow { name : string }.

(** The calls the program makes on pyodbc, over the state [W] of the driver
    and the database behind it.  [execute] takes the statement and the bound
    values ([[]] when the call passes the statement alone) and returns the
    cursor; what is kept of it is its [rowcount].  [cursor_exit] and
    [connection_exit] are the [__exit__] methods the [with] statements call,
    told whether the block raised. *)
Record Driver (W : Type) : Type := mkDriver {
  connect : pyval -> W -> outcome unit * W;
  cursor : W -> outcome unit * W;
  execute : string -> list pyval -> W -> outcome Z * W;
  commit : W -> outcome unit * W;
  fetchall : W -> outcome (list row) * W;
  cursor_exit : bool -> W -> outcome unit * W;
  connection_exit : bool -> W -> outcome unit * W;
  close : W -> outcome unit * W
}.

Arguments connect {W} _ _ _.
Arguments cursor {W} _ _.
Arguments execute {W} _ _ _ _.
Arguments commit {W} _ _.
Arguments fetchall {W} _ _.
Arguments cursor_exit {W} _ _ _.
Arguments connection_exit {W} _ _ _.
Arguments close {W} _ _.

(** What the program does to the outside, in order. *)
Inductive event : Type :=
| EvConnect (connection_string : pyval)
| EvCursor
| EvExecute (sql : string) (args : list pyval)
| EvCommit
| EvFetchall
| EvCursorExit (raised : bool)
| EvConnectionExit (raised : bool)
| EvClose
| EvPrintCursor
| EvPrint (text : string).

(** The outside: the driver's state and the calls made so far. *)
Record outside (W : Type) : Type := mkOutside { world : W; trace : list event }.

Arguments mkOutside {W} _ _.
Arguments world {W} _.
Arguments trace {W} _.

(** ** Statements that may raise and change a state *)

Definition M (S A : Type) : Type := S -> outcome A * S.

Definition ret {S A : Type} (a : A) : M S A := fun s => (Return a, s).

Definition raise {S A : Type} (e : exn) : M S A := fun s => (Raise e, s).

Definition bind {S A B : Type} (m : M S A) (k : A -> M S B) : M S B :=
  fun s =>
    match m s with
    | (Return a, s1) => k a s1
    | (Raise e, s1) => (Raise e, s1)
    end.

Notation "x <- m ;; k" := (bind m (fun x => k))
  (at level 61, m at next level, right associativity).
Notation "m ;;; k" := (bind m (fun _ => k))
  (at level 61, right associativity).

(** A pure expression inside a statement. *)
Definition eval {S A : Type} (o : outcome A) : M S A := fun s => (o, s).

(** [with acquire as r: body]: when [acquire] raises nothing is entered; else
    the exit runs on every way out of [body], and an exception of the exit
    replaces the outcome of the block.  The exits of pyodbc return [None], so
    an exception of the block goes on after them. *)
Definition with_ {S A : Type} (acquire : M S unit) (exit_ : bool -> M S unit)
  (body : M S A) : M S A :=
  acquire ;;;
  fun s =>
    match body s with
    | (Return a, s1) =>
        match exit_ false s1 with
        | (Return _, s2) => (Return a, s2)
        | (Raise e, s2) => (Raise e, s2)
        end
    | (Raise e, s1) =>
        match exit_ true s1 with
        | (Return _, s2) => (Raise e, s2)
        | (Raise e', s2) => (Raise e', s2)
        end
    end.

(** A call on the driver: recorded, then answered by the driver. *)
Definition call {W A : Type} (ev : event) (op : W -> outcome A * W) : M (outside W) A :=
  fun s =>
    let '(o, w) := op (world s) in
    (o, mkOutside w (trace s ++ [ev])).

Definition print {W : Type} (ev : event) : M (outside W) unit :=
  fun s => (Return tt, mkOutside (world s) (trace s ++ [ev])).

(** ** [execute_stored_procedure] *)

(** The [result] dict: [rows_updated] is [None] while the key is absent;
    [error_message] is [None] while the value is [None]. *)
Record result_dict : Type := mkResult {
  success : bool;
  error_message : option string;
  rows_updated : option Z
}.

(** The state of a call: the outside and the [result] dict. *)
Record frame (W : Type) : Type := mkFrame { out : outside W; result : result_dict }.

Arguments mkFrame {W} _ _.
Arguments out {W} _.
Arguments result {W} _.

Definition outside_of {W A : Type} (m : M (outside W) A) : M (frame W) A :=
  fun s =>
    let '(o, d) := m (out s) in
    (o, mkFrame d (result s)).

Definition set_result {W : Type} (f : result_dict -> result_dict) : M (frame W) unit :=
  fun s => (Return tt, mkFrame (out s) (f (result s))).

Definition converter : Type := pyval -> outcome pyval.

Fixpoint assoc {A : Type} (k : string) (l : list (string * A)) : option A :=
  match l with
  | [] => None
  | (k', a) :: r => if String.eqb k k' then Some a else assoc k r
  end.

Definition type_mapping (P : Platform) : list (string * converter) :=
  [ ("str", py_str P);
    ("int", py_int P);
    ("float", py_float P);
    ("datetime", py_isoparse P);
    ("json", fun x => json_dumps P false x) ].

(** [value_type in type_mapping], then [type_mapping[value_type]]: the key is
    hashed first; only a [str] equals a key of the table. *)
Definition lookup_converter (P : Platform) (value_type : pyval) : outcome (option converter) :=
  match unhashable value_type with
  | Some u => Raise (mkExn TypeError (exc_text P BHash u))
  | None =>
      Return match value_type with
             | PyStr t => assoc t (type_mapping P)
             | _ => None
             end
  end.


Definition shape_error : exn :=
  mkExn ValueError "Each parameter value must be a tuple of (type, actual_value).".

(** The body of the loop over [params.items()]: the value appended to
    [param_values]. *)
Definition convert_param (P : Platform) (value : pyval) : outcome pyval :=
  match value with
  | PyTuple [value_type; actual_value] =>
      obind (lookup_converter P value_type) (fun f =>
        match f with
        | Some conv => conv actual_value
        | None => Return actual_value
        end)
  | _ => Raise shape_error
  end.

Fixpoint convert_params (P : Platform) (items : list (string * pyval))
  (param_values : list pyval) : outcome (list pyval) :=
  match items with
  | [] => Return param_values
  | (_, value) :: r =>
      obind (convert_param P value) (fun v => convert_params P r (param_values ++ [v]))
  end.

Definition param_placeholders (items : list (string * pyval)) : string :=
  String.concat ", " (map (fun kv => "@" ++ fst kv ++ " = ?") items).

(** Reading the local variable [rows_updated] while it is unbound; the text
    is that of Python 3.11 and later (line 138 of [main.py] needs 3.12). *)
Definition unbound_rows_updated : exn :=
  mkExn UnboundLocalError
    "cannot access local variable 'rows_updated' where it is not associated with a value".

Section Program.

Variable W : Type.
Variable P : Platform.
Variable D : Driver W.

(** The two branches of [if params:].  Each returns the local variable
    [rows_updated] ([None] while it is unbound): the first branch binds
    [tryres] and leaves it unbound. *)
Definition run_statement (stored_procedure : string)
  (params : option (list (string * pyval))) : M (frame W) (option Z) :=
  match params with
  | Some ((_ :: _) as items) =>
      let placeholders := param_placeholders items in
      param_values <- eval (convert_params P items []) ;;
      let sql := "EXEC " ++ stored_procedure ++ " " ++ placeholders in
      tryres <- outside_of (call (EvExecute sql param_values) (execute D sql param_values)) ;;
      outside_of (print EvPrintCursor) ;;;
      ret None
  | _ =>
      let sql := "EXEC " ++ stored_procedure in
      local_rows_updated <- outside_of (call (EvExecute sql []) (execute D sql [])) ;;
      outside_of (print (EvPrint "Should be executed")) ;;;
      ret (Some local_rows_updated)
  end.

(** The [try] block. *)
Definition try_block (connection_string stored_procedure : string)
  (params : option (list (string * pyval))) : M (frame W) unit :=
  with_ (outside_of (call (EvConnect (PyStr connection_string))
                          (connect D (PyStr connection_string))))
        (fun raised => outside_of (call (EvConnectionExit raised) (connection_exit D raised)))
    (with_ (outside_of (call EvCursor (cursor D)))
           (fun raised => outside_of (call (EvCursorExit raised) (cursor_exit D raised)))
       (local_rows_updated <- run_statement stored_procedure params ;;
        outside_of (call EvCommit (commit D)) ;;;
        set_result (fun r => mkResult true (error_message r) (rows_updated r)) ;;;
        match local_rows_updated with
        | Some rowcount =>
            set_result (fun r => mkResult (success r) (error_message r) (Some rowcount))
        | None => raise unbound_rows_updated
        end)).

(** The [except] clauses, in order: the class caught and the prefix of the
    message. *)
Definition handlers : list (exc_type * string) :=
  [ (PyodbcError, "Database error: ");
    (ValueError, "Value error: ");
    (Exception, "An unexpected error occurred: ") ].

(** The first clause whose class the exception is an instance of. *)
Definition handler_for (e : exn) : option (exc_type * string) :=
  find (fun h => issubclass (etype e) (fst h)) handlers.

Definition start (w : W) : frame W :=
  mkFrame (mkOutside w []) (mkResult false None None).

(** The call: what it returns or raises, and the outside afterwards. *)
Definition execute_stored_procedure (connection_string stored_procedure : string)
  (params : option (list (string * pyval))) (w : W) : outcome result_dict * outside W :=
  match try_block connection_string stored_procedure params (start w) with
  | (Return _, s) => (Return (result s), out s)
  | (Raise e, s) =>
      match handler_for e with
      | Some (_, prefix) =>
          let r := result s in
          (Return (mkResult (success r) (Some (prefix ++ detail e)) (rows_updated r)), out s)
      | None => (Raise e, out s)
      end
  end.

(** ** [list_stored_procedures] *)

Definition catalog_query : string :=
  String "010"%char "        SELECT name" ++
  String "010"%char "        FROM sys.procedures" ++
  String "010"%char "        ".

Definition list_stored_procedures (getenv : string -> option string)
  : M (outside W) (list string) :=
  let connection_string :=
    match getenv "DbConnectionString" with
    | Some s => PyStr s
    | None => PyNone
    end in
  call (EvConnect connection_string) (connect D connection_string) ;;;
  procedures <-
    with_ (call EvCursor (cursor D))
          (fun raised => call (EvCursorExit raised) (cursor_exit D raised))
      (call (EvExecute catalog_query []) (execute D catalog_query []) ;;;
       call EvFetchall (fetchall D)) ;;
  call EvClose (close D) ;;;
  ret (map name procedures).

End Program.

Arguments run_statement {W} P D _ _ _.
Arguments try_block {W} P D _ _ _ _.
Arguments start {W} w.
Arguments execute_stored_procedure {W} P D _ _ _ _.
Arguments list_stored_procedures {W} D _ _.

(** The value of [sql] that reaches [cursor.execute], by the branch of
    [if params:]. *)
Definition statement_text (stored_procedure : string)
  (params : option (list (string * pyval))) : string :=
  match params with
  | Some ((_ :: _) as items) =>
      "EXEC " ++ stored_procedure ++ " " ++ param_placeholders items
  | _ => "EXEC " ++ stored_procedure
  end.

(** The prefix of the message, by the class of the exception caught. *)
Definition category_prefix (t : exc_type) : string :=
  match t with
  | PyodbcError => "Database error: "
  | ValueError => "Value error: "
  | _ => "An unexpected error occurred: "
  end.

(** The characters an integer literal is made of, before and after
    [transform_decimal_and_space]. *)
Definition buffer_char (c : ascii) : bool :=
  is_digit c || Ascii.eqb c "_"%char || Ascii.eqb c "+"%char || Ascii.eqb c "-"%char
  || py_isspace c.

Definition int_literal_char (c : ascii) : bool :=
  buffer_char c || unicode_isspace_high c.




Definition is_line_feed (c : ascii) : bool := (code c =? 10)%nat.

(** Text without a line feed. *)
Definition single_line (s : string) : bool :=
  string_forallb (fun c => negb (is_line_feed c)) s.

(** Induction on values, through the lists inside them. *)
Section PyvalInduction.

Variable Q : pyval -> Prop.
Hypothesis HNone : Q PyNone.
Hypothesis HBool : forall b, Q (PyBool b).
Hypothesis HInt : forall z, Q (PyInt z).
Hypothesis HFloat : forall f, Q (PyFloat f).
Hypothesis HStr : forall s, Q (PyStr s).
Hypothesis HList : forall xs, Forall Q xs -> Q (PyList xs).
Hypothesis HTuple : forall xs, Forall Q xs -> Q (PyTuple xs).
Hypothesis HDict :
  forall items, Forall (fun kv => Q (fst kv) /\ Q (snd kv)) items -> Q (PyDict items).
Hypothesis HDatetime : forall d, Q (PyDatetime d).

Fixpoint pyval_nested_ind (v : pyval) : Q v :=
  let all :=
    fix all (l : list pyval) : Forall Q l :=
      match l with
      | [] => Forall_nil Q
      | x :: r => Forall_cons x (pyval_nested_ind x) (all r)
      end in
  match v with
  | PyNone => HNone
  | PyBool b => HBool b
  | PyInt z => HInt z
  | PyFloat f => HFloat f
  | PyStr s => HStr s
  | PyList xs => HList xs (all xs)
  | PyTuple xs => HTuple xs (all xs)
  | PyDict items =>
      HDict items
        ((fix all_items (l : list (pyval * pyval))
            : Forall (fun kv => Q (fst kv) /\ Q (snd kv)) l :=
            match l with
            | [] => Forall_nil _
            | (k, x) :: r =>
                Forall_cons (k, x) (conj (pyval_nested_ind k) (pyval_nested_ind x))
                  (all_items r)
            end) items)
  | PyDatetime d => HDatetime d
  end.

End PyvalInduction.

(** [params.items()], empty for [None]. *)
Definition items_of (params : option (list (string * pyval))) : list (string * pyval) :=
  match params with
  | Some items => items
  | None => []
  end.

(** ** Sample installations and drivers *)

(** [tp_name] of the type of a value, as error messages show it. *)
Definition tp_name (v : pyval) : string :=
  match v with
  | PyDatetime _ => "datetime.datetime"
  | _ => type_name v
  end.

(** The message of the first check of [datetime(...)] that fails. *)
Definition datetime_range_text (fields : list pyval) : string :=
  match fields with
  | PyInt y :: PyInt m :: PyInt d :: rest =>
      if negb ((1 <=? y) && (y <=? 9999)) then "year " ++ decimal y ++ " is out of range"
      else if negb ((1 <=? m) && (m <=? 12)) then "month must be in 1..12"
      else if negb ((1 <=? d) && (d <=? days_in_month y m)) then
        "day is out of range for month"
      else
        match rest with
        | [PyInt h; PyInt mi; PyInt s; PyInt us] =>
            if negb ((0 <=? h) && (h <=? 23)) then "hour must be in 0..23"
            else if negb ((0 <=? mi) && (mi <=? 59)) then "minute must be in 0..59"
            else if negb ((0 <=? s) && (s <=? 59)) then "second must be in 0..59"
            else "microsecond must be in 0..999999"
        | _ => EmptyString
        end
  | _ => EmptyString
  end.

(** The messages of CPython 3.12, for offending strings that [repr] shows
    as they are, between single quotes. *)
Definition sample_exc_text (b : builtin) (v : pyval) : string :=
  match b, v with
  | BInt, PyStr s => "invalid literal for int() with base 10: '" ++ s ++ "'"
  | BInt, PyFloat _ => "cannot convert float NaN or infinity to integer"
  | BInt, _ =>
      "int() argument must be a string, a bytes-like object or a real number, not '"
      ++ tp_name v ++ "'"
  | BJson, PyInt _ | BStr, _ => "Exceeds the limit (4300 digits) for integer string conversion"
  | BJson, _ => "Object of type " ++ type_name v ++ " is not JSON serializable"
  | BJsonKey, _ => "keys must be str, int, float, bool or None, not " ++ type_name v
  | BHash, _ => "unhashable type: '" ++ type_name v ++ "'"
  | BFloat, PyStr s => "could not convert string to float: '" ++ s ++ "'"
  | BFloat, PyInt _ => "int too large to convert to float"
  | BFloat, _ =>
      "float() argument must be a string or a real number, not '" ++ tp_name v ++ "'"
  | BIntBytes, PyStr s => "invalid literal for int() with base 10: b'" ++ s ++ "'"
  | BIntBytes, _ => EmptyString
  | BDatetime, PyTuple fields => datetime_range_text fields
  | BDatetime, _ => EmptyString
  | BLen, _ => "object of type '" ++ tp_name v ++ "' has no len()"
  end.

(** An installation with these messages, where a slice can be hashed; the
    text it gives for a float or for a container is a placeholder. *)
Definition sample_platform : Platform :=
  mkPlatform
    sample_exc_text
    (fun _ => "0.0")
    (fun x => Return ("<" ++ type_name x ++ ">"))
    (mkExn Exception "slice(0, 4, None)").

(** A database as the sample drivers see it: the connections open and the
    commits done. *)
Record sample_world : Type := mkWorld { open_connections : nat; commits : nat }.

Definition fresh_world : sample_world := mkWorld 0 0.

(** A driver whose calls all return: [execute] reports [n] rows and
    [fetchall] gives [rows]. *)
Definition quiet_driver (n : Z) (rows : list row) : Driver sample_world :=
  mkDriver sample_world
    (fun _ w => (Return tt, mkWorld (S (open_connections w)) (commits w)))
    (fun w => (Return tt, w))
    (fun _ _ w => (Return n, w))
    (fun w => (Return tt, mkWorld (open_connections w) (S (commits w))))
    (fun w => (Return rows, w))
    (fun _ w => (Return tt, w))
    (fun _ w => (Return tt, w))
    (fun w => (Return tt, mkWorld (pred (open_connections w)) (commits w))).

(** The same driver, except that [execute] raises [e]. *)
Definition refusing_driver (e : exn) : Driver sample_world :=
  mkDriver sample_world
    (connect (quiet_driver 0 []))
    (cursor (quiet_driver 0 []))
    (fun _ _ w => (Raise e, w))
    (commit (quiet_driver 0 []))
    (fetchall (quiet_driver 0 []))
    (cursor_exit (quiet_driver 0 []))
    (connection_exit (quiet_driver 0 []))
    (close (quiet_driver 0 [])).

(** A driver observed: the same calls on the same state, with the number of
    commits that returned counted beside it. *)
Definition beside {W A : Type} (n : nat) (r : outcome A * W) : outcome A * (W * nat) :=
  let '(o, w) := r in (o, (w, n)).

Definition counting_commits {W : Type} (D : Driver W) : Driver (W * nat) :=
  mkDriver (W * nat)
    (fun cs s => beside (snd s) (connect D cs (fst s)))
    (fun s => beside (snd s) (cursor D (fst s)))
    (fun sql args s => beside (snd s) (execute D sql args (fst s)))
    (fun s =>
       match commit D (fst s) with
       | (Return u, w) => (Return u, (w, S (snd s)))
       | (Raise e, w) => (Raise e, (w, snd s))
       end)
    (fun s => beside (snd s) (fetchall D (fst s)))
    (fun raised s => beside (snd s) (cursor_exit D raised (fst s)))
    (fun raised s => beside (snd s) (connection_exit D raised (fst s)))
    (fun s => beside (snd s) (close D (fst s))).

(** ** The call as [main] makes it *)

(** The block under [with conn.cursor() as cursor:]. *)
Definition cursor_block {W : Type} (P : Platform) (D : Driver W)
  (stored_procedure : string) (params : option (list (string * pyval)))
  : M (frame W) unit :=
  with_ (outside_of (call EvCursor (cursor D)))
        (fun raised => outside_of (call (EvCursorExit raised) (cursor_exit D raised)))
    (local_rows_updated <- run_statement P D stored_procedure params ;;
     outside_of (call EvCommit (commit D)) ;;;
     set_result (fun r => mkResult true (error_message r) (rows_updated r)) ;;;
     match local_rows_updated with
     | Some rowcount =>
         set_result (fun r => mkResult (success r) (error_message r) (Some rowcount))
     | None => raise unbound_rows_updated
     end).

(** [execute_stored_procedure] on whatever [os.getenv] gave for the
    connection string, [None] included: the same function, its first
    argument not yet known to be a [str]. *)
Definition try_block_on {W : Type} (P : Platform) (D : Driver W) (connection : pyval)
  (stored_procedure : string) (params : option (list (string * pyval)))
  : M (frame W) unit :=
  with_ (outside_of (call (EvConnect connection) (connect D connection)))
        (fun raised => outside_of (call (EvConnectionExit raised) (connection_exit D raised)))
    (cursor_block P D stored_procedure params).

Definition execute_on {W : Type} (P : Platform) (D : Driver W) (connection : pyval)
  (stored_procedure : string) (params : option (list (string * pyval))) (w : W)
  : outcome result_dict * outside W :=
  match try_block_on P D connection stored_procedure params (start w) with
  | (Return _, s) => (Return (result s), out s)
  | (Raise e, s) =>
      match handler_for e with
      | Some (_, prefix) =>
          let r := result s in
          (Return (mkResult (success r) (Some (prefix ++ detail e)) (rows_updated r)), out s)
      | None => (Raise e, out s)
      end
  end.

(** ** [main] *)

(** The values [main] imports from [config]. *)
Record Config : Type := mkConfig { LOG_DB : pyval; LOG_CONTEXT : pyval; ENV : pyval }.

(** What [main] asks of the logging package: a heartbeat or a log event,
    with the arguments of the call. *)
Inductive report : Type :=
| Heartbeat (servicename status details : string) (db_env : pyval)
| LogEvent (log_db : pyval) (level message : string) (context db_env : pyval).

(** [_send_heartbeat] and [log_event] of [mbu_dev_shared_components]: each
    may return or raise, and may change the state of the databases. *)
Record Reporting (W : Type) : Type := mkReporting {
  send_heartbeat : string -> string -> string -> pyval -> W -> outcome unit * W;
  log_event : pyval -> string -> string -> pyval -> pyval -> W -> outcome unit * W
}.

Arguments send_heartbeat {W} _ _ _ _ _ _.
Arguments log_event {W} _ _ _ _ _ _ _.

(** What [main] does to the outside, in order: a report asked for, or a call
    on the driver. *)
Inductive step : Type :=
| Reported (r : report)
| Driven (ev : event).

Record site (W : Type) : Type := mkSite { ground : W; journal : list step }.

Arguments mkSite {W} _ _.
Arguments ground {W} _.
Arguments journal {W} _.

Definition reporting {W : Type} (r : report) (op : W -> outcome unit * W)
  : M (site W) unit :=
  fun s =>
    let '(o, w) := op (ground s) in
    (o, mkSite w (journal s ++ [Reported r])).

Definition purge_procedure : string := "RPA.journalizing.sp_UpdatePurgeMarker".

(** The call of [execute_stored_procedure] inside [main]. *)
Definition purge_call {W : Type} (P : Platform) (D : Driver W) (connection : pyval)
  : M (site W) result_dict :=
  fun s =>
    let '(o, d) := execute_on P D connection purge_procedure None (ground s) in
    (o, mkSite (world d) (journal s ++ map Driven (trace d))).

(** [res["rows_updated"]] on a result without the key: [KeyError], whose
    text is the key's [repr]. *)
Definition key_error_rows_updated : exn := mkExn Exception "'rows_updated'".

Definition heartbeat_running (C : Config) : report :=
  Heartbeat "SQL data base purge" "RUNNING" "" (ENV C).

Definition log_info (C : Config) (message : string) : report :=
  LogEvent (LOG_DB C) "INFO" message (LOG_CONTEXT C) (ENV C).

Definition run_report {W : Type} (R : Reporting W) (r : report) : M (site W) unit :=
  reporting r
    match r with
    | Heartbeat servicename status details db_env =>
        send_heartbeat R servicename status details db_env
    | LogEvent log_db level message context db_env =>
        log_event R log_db level message context db_env
    end.

Definition main {W : Type} (P : Platform) (D : Driver W) (R : Reporting W) (C : Config)
  (getenv : string -> option string) : M (site W) unit :=
  run_report R (heartbeat_running C) ;;;
  run_report R (log_info C "Running purge of database") ;;;
  res <- purge_call P D match getenv "DbConnectionString" with
                        | Some s => PyStr s
                        | None => PyNone
                        end ;;
  text <- eval match rows_updated res with
               | Some n => int_repr P BStr n
               | None => Raise key_error_rows_updated
               end ;;
  run_report R (log_info C ("Purged " ++ text ++ " forms")).

(** A logging package whose calls all return. *)
Definition quiet_reporting (W : Type) : Reporting W :=
  mkReporting W (fun _ _ _ _ w => (Return tt, w)) (fun _ _ _ _ _ w => (Return tt, w)).

Definition sample_config : Config :=
  mkConfig (PyStr "LogDb") (PyStr "purge") (PyStr "PROD").

(** ** Reading a JSON string back *)

Definition hex_value (c : ascii) : nat :=
  if is_digit c then (code c - 48)%nat else (code c - 87)%nat.

(** The characters a JSON string body stands for, escape by escape; it is
    here to show that [json_escape] loses nothing. *)
Fixpoint json_unescape (s : string) : string :=
  match s with
  | EmptyString => EmptyString
  | String c r =>
      if (code c =? 92)%nat then
        match r with
        | String k r1 =>
            if (code k =? 117)%nat then
              match r1 with
              | String _ (String _ (String x (String y r2))) =>
                  String (chr (16 * hex_value x + hex_value y)) (json_unescape r2)
              | _ => s
              end
            else
              String (if (code k =? 110)%nat then chr 10
                      else if (code k =? 114)%nat then chr 13
                      else if (code k =? 116)%nat then chr 9
                      else if (code k =? 98)%nat then chr 8
                      else if (code k =? 102)%nat then chr 12
                      else k)
                     (json_unescape r1)
        | EmptyString => s
        end
      else String c (json_unescape r)
  end.

(** ** JSON text, as a reader takes it *)












(** ** Kinds of calls on the driver *)


(** The calls that send a statement or commit. *)
Definition touches_data (ev : event) : bool :=
  match ev with
  | EvExecute _ _ | EvCommit => true
  | _ => false
  end.

(** The calls that send a statement. *)
Definition sends_statement (ev : event) : bool :=
  match ev with
  | EvExecute _ _ => true
  | _ => false
  end.

(** ** A driver observed *)

(** The same calls on the same state, with every call the driver receives
    written down beside it as the driver receives it: the method and the
    arguments that reached it. *)
Definition noted {W A : Type} (log : list event) (ev : event) (r : outcome A * W)
  : outcome A * (W * list event) :=
  let '(o, w) := r in (o, (w, (log ++ [ev])%list)).

Definition recording {W : Type} (D : Driver W) : Driver (W * list event) :=
  mkDriver (W * list event)
    (fun cs s => noted (snd s) (EvConnect cs) (connect D cs (fst s)))
    (fun s => noted (snd s) EvCursor (cursor D (fst s)))
    (fun sql args s => noted (snd s) (EvExecute sql args) (execute D sql args (fst s)))
    (fun s => noted (snd s) EvCommit (commit D (fst s)))
    (fun s => noted (snd s) EvFetchall (fetchall D (fst s)))
    (fun raised s => noted (snd s) (EvCursorExit raised) (cursor_exit D raised (fst s)))
    (fun raised s =>
       noted (snd s) (EvConnectionExit raised) (connection_exit D raised (fst s)))
    (fun s => noted (snd s) EvClose (close D (fst s))).

(** What the driver received during a run on [recording D]. *)
Definition received {W A : Type} (run : outcome A * outside (W * list event))
  : list event :=
  snd (world (snd run)).

(** * Properties *)

Arguments convert_params : simpl never.
Arguments param_placeholders : simpl never.

(** ** Strings *)

Lemma append_assoc :
  forall a b c : string, (a ++ b) ++ c = a ++ (b ++ c).
Proof.
  induction a as [| x a IH]; intros b c; cbn; [reflexivity | now rewrite IH].
Qed.

(** ** The conversion loop *)

Lemma convert_params_nil :
  forall P acc, convert_params P [] acc = Return acc.
Proof. reflexivity. Qed.

Lemma convert_params_cons :
  forall P k value r acc,
    convert_params P ((k, value) :: r) acc
    = obind (convert_param P value) (fun v => convert_params P r (acc ++ [v])).
Proof. reflexivity. Qed.

Lemma convert_params_acc :
  forall P items acc vals,
    convert_params P items acc = Return vals ->
    exists vs, vals = (acc ++ vs)%list /\
               Forall2 (fun kv v => convert_param P (snd kv) = Return v) items vs.
Proof.
  intros P items; induction items as [| [k value] r IH]; intros acc vals H;
    [rewrite convert_params_nil in H | rewrite convert_params_cons in H].
  - inversion H; subst. exists []. rewrite app_nil_r. split; [reflexivity | constructor].
  - destruct (convert_param P value) as [v | e] eqn:Hv; simpl in H; [| discriminate].
    destruct (IH _ _ H) as [vs [Hvals HF]].
    exists (v :: vs). split.
    + rewrite Hvals, <- app_assoc. reflexivity.
    + constructor; [exact Hv | exact HF].
Qed.

(** ** The handlers *)

Lemma handler_for_prefix :
  forall e, exists c, handler_for e = Some (c, category_prefix (etype e)).
Proof.
  intros [[] d]; cbn; eauto.
Qed.

(** What the call returns once the [try] block has raised [e]. *)
Lemma execute_after_raise :
  forall (W : Type) (P : Platform) (D : Driver W) cs sp params (w : W) e s,
    try_block P D cs sp params (start w) = (Raise e, s) ->
    execute_stored_procedure P D cs sp params w
    = (Return (mkResult (success (result s))
                        (Some (category_prefix (etype e) ++ detail e))
                        (rows_updated (result s))),
       out s).
Proof.
  intros W P D cs sp params w e s H. unfold execute_stored_procedure. rewrite H.
  destruct (handler_for_prefix e) as [c Hc]. rewrite Hc. reflexivity.
Qed.

Lemma execute_after_return :
  forall (W : Type) (P : Platform) (D : Driver W) cs sp params (w : W) u s,
    try_block P D cs sp params (start w) = (Return u, s) ->
    execute_stored_procedure P D cs sp params w = (Return (result s), out s).
Proof.
  intros W P D cs sp params w u s H. unfold execute_stored_procedure. rewrite H.
  reflexivity.
Qed.

(** ** The two ways of passing no parameter *)

(** C10: an empty mapping takes the branch of [None]: the same result, the
    same calls on the driver with the same statement text, the same state of
    the database. *)
Theorem empty_params_like_none :
  forall (W : Type) (P : Platform) (D : Driver W) (cs sp : string) (w : W),
    execute_stored_procedure P D cs sp (Some []) w
    = execute_stored_procedure P D cs sp None w
    /\ statement_text sp (Some []) = statement_text sp None
    /\ run_statement P D sp (Some []) = run_statement P D sp None.
Proof.
  intros. repeat split.
Qed.

(** ** The call without parameters *)

(** C7: without parameters (absent or empty), when the driver connects, opens
    the cursor, executes the statement reporting [n] rows and commits, the
    call returns a result with [success] true and [rows_updated] set to
    [n]. *)
Theorem no_params_success :
  forall (W : Type) (P : Platform) (D : Driver W) (cs sp : string)
         (params : option (list (string * pyval))) (w w1 w2 w3 w4 : W) (n : Z),
    items_of params = [] ->
    connect D (PyStr cs) w = (Return tt, w1) ->
    cursor D w1 = (Return tt, w2) ->
    execute D ("EXEC " ++ sp) [] w2 = (Return n, w3) ->
    commit D w3 = (Return tt, w4) ->
    exists r,
      fst (execute_stored_procedure P D cs sp params w) = Return r
      /\ success r = true
      /\ rows_updated r = Some n.
Proof.
  intros W P D cs sp params w w1 w2 w3 w4 n Hp Hc Hk He Hm.
  assert (Hrun : run_statement P D sp params = run_statement P D sp None).
  { destruct params as [[| kv r] |]; [reflexivity | discriminate | reflexivity]. }
  destruct (try_block P D cs sp params (start w)) as [o s] eqn:Ht.
  pose proof Ht as Hblock.
  unfold try_block, with_, bind, outside_of, call, print, set_result, ret, start in Ht.
  rewrite Hrun in Ht. clear Hrun.
  unfold run_statement, bind, outside_of, call, print, ret in Ht.
  cbn in He. cbn in Ht. rewrite Hc in Ht. cbn in Ht. rewrite Hk in Ht. cbn in Ht.
  rewrite He in Ht. cbn in Ht. rewrite Hm in Ht. cbn in Ht.
  destruct (cursor_exit D false w4) as [[[] | e1] w5]; cbn in Ht;
    destruct (connection_exit D _ w5) as [[[] | e2] w6]; cbn in Ht;
    inversion Ht; subst; clear Ht;
    match goal with
    | H : try_block _ _ _ _ _ _ = (Return _, _) |- _ =>
        rewrite (execute_after_return _ _ _ _ _ _ _ _ _ H)
    | H : try_block _ _ _ _ _ _ = (Raise _, _) |- _ =>
        rewrite (execute_after_raise _ _ _ _ _ _ _ _ _ H)
    end; cbn; eauto.
Qed.

(** ** The statement and its bound values *)

Ltac open_block H :=
  unfold try_block, run_statement, with_, bind, outside_of, call, print, set_result,
    ret, raise, eval, start in H;
  cbn in H.

Ltac driver_cases H D :=
  repeat match type of H with
         | context [execute D ?a ?b ?c] =>
             destruct (execute D a b c) as [[? | ?] ?]; cbn in H
         | context [commit D ?c] =>
             destruct (commit D c) as [[[] | ?] ?]; cbn in H
         | context [cursor_exit D ?b ?c] =>
             destruct (cursor_exit D b c) as [[[] | ?] ?]; cbn in H
         | context [connection_exit D ?b ?c] =>
             destruct (connection_exit D b c) as [[[] | ?] ?]; cbn in H
         end.

Ltac close_block :=
  match goal with
  | H : try_block _ _ _ _ _ _ = (Return _, _) |- _ =>
      rewrite (execute_after_return _ _ _ _ _ _ _ _ _ H)
  | H : try_block _ _ _ _ _ _ = (Raise _, _) |- _ =>
      rewrite (execute_after_raise _ _ _ _ _ _ _ _ _ H)
  end.

Ltac reduce_recorded H :=
  cbn [recording noted connect cursor execute commit cursor_exit connection_exit
       world out trace result fst snd app success error_message rows_updated] in H.

Ltac recorded_cases H D :=
  repeat (first
    [ match type of H with
      | context [connect D ?a ?c] => destruct (connect D a c) as [[[] | ?] ?]
      end
    | match type of H with
      | context [cursor D ?c] => destruct (cursor D c) as [[[] | ?] ?]
      end
    | match type of H with
      | context [execute D ?a ?b ?c] => destruct (execute D a b c) as [[? | ?] ?]
      end
    | match type of H with
      | context [commit D ?c] => destruct (commit D c) as [[[] | ?] ?]
      end
    | match type of H with
      | context [cursor_exit D ?b ?c] => destruct (cursor_exit D b c) as [[[] | ?] ?]
      end
    | match type of H with
      | context [connection_exit D ?b ?c] =>
          destruct (connection_exit D b c) as [[[] | ?] ?]
      end ];
    reduce_recorded H).

Ltac open_recorded H :=
  unfold try_block, run_statement, with_, bind, outside_of, call, print, set_result,
    ret, raise, eval, start in H;
  reduce_recorded H.

(** The text of the placeholders, entry by entry. *)
Lemma param_placeholders_one :
  forall k (v : pyval), param_placeholders [(k, v)] = "@" ++ k ++ " = ?".
Proof. reflexivity. Qed.

Lemma param_placeholders_more :
  forall k1 (v1 : pyval) kv2 more,
    param_placeholders ((k1, v1) :: kv2 :: more)
    = "@" ++ k1 ++ " = ?, " ++ param_placeholders (kv2 :: more).
Proof.
  intros. unfold param_placeholders. cbn [map fst String.concat].
  rewrite !append_assoc. reflexivity.
Qed.

(** C4: once the connection and the cursor are there and the parameters
    convert to [vals], the third call the driver receives is
    [cursor.execute(sql, vals)], and it receives no other statement.  [sql]
    is ["EXEC <name>"] without parameters and
    ["EXEC <name> @k1 = ?, @k2 = ?, ..."] with the keys in the order of the
    mapping, one placeholder for each key, the last one included; [vals]
    holds, position by position, the converted value of the entry whose key
    stands at that position. *)
Theorem statement_follows_parameter_order :
  forall (W : Type) (P : Platform) (D : Driver W) (cs sp : string)
         (params : option (list (string * pyval))) (w w1 w2 : W) (vals : list pyval),
    connect D (PyStr cs) w = (Return tt, w1) ->
    cursor D w1 = (Return tt, w2) ->
    convert_params P (items_of params) [] = Return vals ->
    (exists rest,
        received (execute_stored_procedure P (recording D) cs sp params (w, []))
        = EvConnect (PyStr cs) :: EvCursor
            :: EvExecute (statement_text sp params) vals :: rest
        /\ filter sends_statement rest = [])
    /\ (exists rest,
           trace (snd (execute_stored_procedure P D cs sp params w))
           = EvConnect (PyStr cs) :: EvCursor
               :: EvExecute (statement_text sp params) vals :: rest)
    /\ Forall2 (fun kv v => convert_param P (snd kv) = Return v) (items_of params) vals
    /\ statement_text sp None = "EXEC " ++ sp
    /\ statement_text sp (Some []) = "EXEC " ++ sp
    /\ (forall kv more,
           statement_text sp (Some (kv :: more))
           = "EXEC " ++ sp ++ " " ++ param_placeholders (kv :: more))
    /\ (forall k v, param_placeholders [(k, v)] = "@" ++ k ++ " = ?")
    /\ (forall k1 v1 kv2 more,
           param_placeholders ((k1, v1) :: kv2 :: more)
           = "@" ++ k1 ++ " = ?, " ++ param_placeholders (kv2 :: more))
    /\ (forall a b,
           statement_text "proc" (Some [("A", a); ("B", b)])
           = "EXEC proc @A = ?, @B = ?").
Proof.
  intros W P D cs sp params w w1 w2 vals Hc Hk Hv.
  split; [| split; [| split; [| repeat split]]].
  - destruct (try_block P (recording D) cs sp params (start (w, []))) as [o s] eqn:Ht.
    pose proof Ht as Hblock. open_recorded Ht.
    rewrite Hc in Ht; reduce_recorded Ht. rewrite Hk in Ht; reduce_recorded Ht.
    destruct params as [[| kv r] |]; cbn [items_of] in Hv;
      [rewrite convert_params_nil in Hv; inversion Hv; subst vals
      | rewrite Hv in Ht
      | rewrite convert_params_nil in Hv; inversion Hv; subst vals];
      reduce_recorded Ht; recorded_cases Ht D; inversion Ht; subst; close_block;
      unfold received; cbn [statement_text world snd fst app];
      eexists; split; reflexivity.
  - destruct (try_block P D cs sp params (start w)) as [o s] eqn:Ht.
    pose proof Ht as Hblock.
    destruct params as [[| kv r] |]; cbn [items_of] in Hv.
    + cbn in Hv. inversion Hv; subst vals. open_block Ht.
      rewrite Hc in Ht; cbn in Ht. rewrite Hk in Ht; cbn in Ht.
      driver_cases Ht D; inversion Ht; subst; close_block; cbn; eauto.
    + open_block Ht. rewrite Hc in Ht; cbn in Ht. rewrite Hk in Ht; cbn in Ht.
      cbn in Hv. rewrite Hv in Ht. cbn in Ht.
      driver_cases Ht D; inversion Ht; subst; close_block; cbn; eauto.
    + cbn in Hv. inversion Hv; subst vals. open_block Ht.
      rewrite Hc in Ht; cbn in Ht. rewrite Hk in Ht; cbn in Ht.
      driver_cases Ht D; inversion Ht; subst; close_block; cbn; eauto.
  - destruct (convert_params_acc _ _ _ _ Hv) as [vs [Hvals HF]].
    cbn in Hvals. subst vals. exact HF.
  - intros. apply param_placeholders_more.
Qed.

(** ** The call with parameters *)

(** Every call with parameters that the driver executes and commits ends in
    the handler of [Exception]: [rows_updated] is read and was never
    bound. *)
Lemma call_with_parameters :
  forall (W : Type) (P : Platform) (D : Driver W) (cs sp : string)
         (kv : string * pyval) (r : list (string * pyval))
         (w w1 w2 w3 w4 w5 w6 : W) (vals : list pyval) (n : Z),
    connect D (PyStr cs) w = (Return tt, w1) ->
    cursor D w1 = (Return tt, w2) ->
    convert_params P (kv :: r) [] = Return vals ->
    execute D (statement_text sp (Some (kv :: r))) vals w2 = (Return n, w3) ->
    commit D w3 = (Return tt, w4) ->
    cursor_exit D true w4 = (Return tt, w5) ->
    connection_exit D true w5 = (Return tt, w6) ->
    try_block P D cs sp (Some (kv :: r)) (start w)
    = (Raise unbound_rows_updated,
       mkFrame
         (mkOutside w6
            [ EvConnect (PyStr cs); EvCursor;
              EvExecute (statement_text sp (Some (kv :: r))) vals;
              EvPrintCursor; EvCommit; EvCursorExit true; EvConnectionExit true ])
         (mkResult true None None)).
Proof.
  intros W P D cs sp kv r w w1 w2 w3 w4 w5 w6 vals n Hc Hk Hv He Hm Hx Hy.
  destruct (try_block P D cs sp (Some (kv :: r)) (start w)) as [o s] eqn:Ht.
  open_block Ht. cbn in Hv, He.
  rewrite Hc in Ht; cbn in Ht. rewrite Hk in Ht; cbn in Ht.
  rewrite Hv in Ht; cbn in Ht. rewrite He in Ht; cbn in Ht.
  rewrite Hm in Ht; cbn in Ht. rewrite Hx in Ht; cbn in Ht.
  rewrite Hy in Ht; cbn in Ht.
  inversion Ht; subst. reflexivity.
Qed.

(** C1: a call with one parameter, on a driver whose calls all return: the
    result has [success] true together with an error message, and no
    [rows_updated]. *)
Theorem parameters_break_result_invariant :
  forall (P : Platform) (n : Z) (rows : list row),
    fst (execute_stored_procedure P (quiet_driver n rows) "dsn" "proc"
           (Some [("A", PyTuple [PyStr "int"; PyStr "1"])]) fresh_world)
    = Return (mkResult true
                (Some "An unexpected error occurred: cannot access local variable 'rows_updated' where it is not associated with a value")
                None).
Proof.
  intros P n rows. reflexivity.
Qed.

(** C2: on the same kind of call the [try] block raises [UnboundLocalError]
    after the commit; the handler turns it into a message and the result
    keeps [success] true. *)
Theorem unbound_variable_reported_as_success :
  forall (P : Platform) (n : Z) (rows : list row) (x : pyval),
    let params := Some [("A", PyTuple [PyStr "text"; x])] in
    fst (try_block P (quiet_driver n rows) "dsn" "proc" params (start fresh_world))
    = Raise unbound_rows_updated
    /\ exists r,
         fst (execute_stored_procedure P (quiet_driver n rows) "dsn" "proc" params
                fresh_world) = Return r
         /\ success r = true
         /\ error_message r
            = Some (category_prefix UnboundLocalError ++ detail unbound_rows_updated).
Proof.
  intros P n rows x params. split; [reflexivity |].
  eexists. split; [reflexivity |]. split; reflexivity.
Qed.

(** C8: on the same kind of call the result carries an error message, and
    the commit was issued and done before the error arose. *)
Theorem commit_done_on_failing_call :
  forall (P : Platform) (n : Z) (rows : list row),
    let run :=
      execute_stored_procedure P (quiet_driver n rows) "dsn" "proc"
        (Some [("A", PyTuple [PyStr "str"; PyStr "x"]);
               ("B", PyTuple [PyStr "int"; PyInt 2])]) fresh_world in
    (exists r msg, fst run = Return r /\ error_message r = Some msg)
    /\ trace (snd run)
       = [ EvConnect (PyStr "dsn"); EvCursor;
           EvExecute "EXEC proc @A = ?, @B = ?" [PyStr "x"; PyInt 2];
           EvPrintCursor; EvCommit; EvCursorExit true; EvConnectionExit true ]
    /\ commits (world (snd run)) = 1%nat.
Proof.
  intros P n rows run. split; [| split]; [do 2 eexists; split |..]; reflexivity.
Qed.

(** ** [list_stored_procedures] *)

(** X13: when every call returns, the names come back in the order of the
    rows and the connection is closed last. *)
Lemma list_stored_procedures_returns :
  forall (W : Type) (D : Driver W) (getenv : string -> option string)
         (w w1 w2 w3 w4 w5 w6 : W) (cs : string) (n : Z) (rows : list row),
    getenv "DbConnectionString" = Some cs ->
    connect D (PyStr cs) w = (Return tt, w1) ->
    cursor D w1 = (Return tt, w2) ->
    execute D catalog_query [] w2 = (Return n, w3) ->
    fetchall D w3 = (Return rows, w4) ->
    cursor_exit D false w4 = (Return tt, w5) ->
    close D w5 = (Return tt, w6) ->
    list_stored_procedures D getenv (mkOutside w [])
    = (Return (map name rows),
       mkOutside w6
         [ EvConnect (PyStr cs); EvCursor; EvExecute catalog_query []; EvFetchall;
           EvCursorExit false; EvClose ]).
Proof.
  intros W D getenv w w1 w2 w3 w4 w5 w6 cs n rows Hg Hc Hk He Hf Hx Hz.
  unfold list_stored_procedures, with_, bind, call, ret. rewrite Hg. cbn in He |- *.
  rewrite Hc. cbn. rewrite Hk. cbn. rewrite He. cbn. rewrite Hf. cbn.
  rewrite Hx. cbn. rewrite Hz. reflexivity.
Qed.

(** X14: [close] is called on one path only: the one where every call
    before it returned. *)
Lemma close_only_on_normal_path :
  forall (W : Type) (D : Driver W) (getenv : string -> option string) (w : W) o s,
    list_stored_procedures D getenv (mkOutside w []) = (o, s) ->
    In EvClose (trace s) ->
    exists cs,
      trace s = [ EvConnect cs; EvCursor; EvExecute catalog_query []; EvFetchall;
                  EvCursorExit false; EvClose ].
Proof.
  intros W D getenv w o s H Hin.
  unfold list_stored_procedures, with_, bind, call, ret in H. cbn in H.
  repeat match type of H with
         | context [connect D ?a ?c] =>
             destruct (connect D a c) as [[[] | ?] ?]; cbn in H
         | context [cursor D ?c] =>
             destruct (cursor D c) as [[[] | ?] ?]; cbn in H
         | context [execute D ?a ?b ?c] =>
             destruct (execute D a b c) as [[? | ?] ?]; cbn in H
         | context [fetchall D ?c] =>
             destruct (fetchall D c) as [[? | ?] ?]; cbn in H
         | context [cursor_exit D ?b ?c] =>
             destruct (cursor_exit D b c) as [[[] | ?] ?]; cbn in H
         | context [close D ?c] =>
             destruct (close D c) as [[[] | ?] ?]; cbn in H
         end;
    inversion H; subst; cbn in Hin |- *;
    try (eexists; reflexivity);
    exfalso; repeat (destruct Hin as [Hin | Hin]; [discriminate |]); exact Hin.
Qed.

(** C9: when the catalog query raises, the exception leaves
    [list_stored_procedures] after the exit of the cursor: [close] is never
    called and the connection stays open. *)
Theorem failed_listing_leaves_connection_open :
  forall (e : exn),
    let run :=
      list_stored_procedures (refusing_driver e) (fun _ => Some "dsn")
        (mkOutside fresh_world []) in
    fst run = Raise e
    /\ trace (snd run)
       = [ EvConnect (PyStr "dsn"); EvCursor; EvExecute catalog_query [];
           EvCursorExit true ]
    /\ ~ In EvClose (trace (snd run))
    /\ open_connections (world (snd run)) = 1%nat.
Proof.
  intros e run. repeat split; try reflexivity.
  cbn. intros [H | [H | [H | [H | []]]]]; discriminate.
Qed.

(** ** Failures and their messages *)


Lemma convert_params_app :
  forall P a b acc,
    convert_params P (a ++ b) acc
    = obind (convert_params P a acc) (fun vs => convert_params P b vs).
Proof.
  intros P a; induction a as [| [k v] a IH]; intros b acc; [reflexivity |].
  cbn [app]. rewrite !convert_params_cons.
  destruct (convert_param P v); cbn; [apply IH | reflexivity].
Qed.




(** ** What holds of every call *)

(** No exception leaves the call: the last handler catches every class. *)
Lemma execute_always_returns :
  forall (W : Type) (P : Platform) (D : Driver W) cs sp params (w : W),
    exists r, fst (execute_stored_procedure P D cs sp params w) = Return r.
Proof.
  intros W P D cs sp params w.
  destruct (try_block P D cs sp params (start w)) as [[u | e] s] eqn:Ht.
  - rewrite (execute_after_return _ _ _ _ _ _ _ _ _ Ht). eexists; reflexivity.
  - rewrite (execute_after_raise _ _ _ _ _ _ _ _ _ Ht). eexists; reflexivity.
Qed.

(** Every error message starts with one of the three prefixes. *)
Lemma error_message_has_prefix :
  forall (W : Type) (P : Platform) (D : Driver W) cs sp params (w : W) r msg,
    fst (execute_stored_procedure P D cs sp params w) = Return r ->
    error_message r = Some msg ->
    exists t d, msg = category_prefix t ++ d.
Proof.
  intros W P D cs sp params w r msg Hr Hm.
  destruct (try_block P D cs sp params (start w)) as [[u | e] s] eqn:Ht.
  - rewrite (execute_after_return _ _ _ _ _ _ _ _ _ Ht) in Hr. cbn in Hr.
    inversion Hr; subst r. exfalso.
    open_block Ht.
    destruct (connect D (PyStr cs) w) as [[[] | ?] ?]; cbn in Ht; [| discriminate Ht].
    destruct (cursor D w0) as [[[] | ?] ?]; cbn in Ht.
    + destruct params as [[| kv l] |]; cbn in Ht;
        try (destruct (convert_params P (kv :: l) []) as [vals | ?]; cbn in Ht);
        driver_cases Ht D; inversion Ht; subst; cbn in Hm; discriminate Hm.
    + driver_cases Ht D; inversion Ht.
  - rewrite (execute_after_raise _ _ _ _ _ _ _ _ _ Ht) in Hr. cbn in Hr.
    inversion Hr; subst r. cbn in Hm. inversion Hm. eauto.
Qed.

(** X12: without parameters, on a driver whose exits return after a block
    that did not raise, the result is well formed: [success] holds exactly
    when there is no error message, and exactly when [rows_updated] is
    there. *)
Lemma result_well_formed_without_parameters :
  forall (W : Type) (P : Platform) (D : Driver W) cs sp params (w : W) r,
    items_of params = [] ->
    (forall w', fst (cursor_exit D false w') = Return tt) ->
    (forall w', fst (connection_exit D false w') = Return tt) ->
    fst (execute_stored_procedure P D cs sp params w) = Return r ->
    (success r = true <-> error_message r = None)
    /\ (rows_updated r <> None <-> success r = true).
Proof.
  intros W P D cs sp params w r Hp Hx Hy Hr.
  assert (Hrun : try_block P D cs sp params = try_block P D cs sp None).
  { destruct params as [[| kv l] |]; [reflexivity | discriminate | reflexivity]. }
  unfold execute_stored_procedure in Hr. rewrite Hrun in Hr. clear Hrun Hp.
  destruct (try_block P D cs sp None (start w)) as [o s] eqn:Ht.
  open_block Ht.
  destruct (connect D (PyStr cs) w) as [[[] | ?] ?]; cbn in Ht.
  - destruct (cursor D w0) as [[[] | ?] ?]; cbn in Ht.
    + destruct (execute D _ [] w1) as [[n | ?] ?]; cbn in Ht.
      * destruct (commit D w2) as [[[] | ?] ?]; cbn in Ht.
        -- specialize (Hx w3). destruct (cursor_exit D false w3) as [[[] | ?] ?];
             cbn in Hx; [| discriminate]. cbn in Ht.
           specialize (Hy w4). destruct (connection_exit D false w4) as [[[] | ?] ?];
             cbn in Hy; [| discriminate]. cbn in Ht.
           inversion Ht; subst. cbn in Hr. inversion Hr; subst. cbn.
           repeat split; intros; congruence.
        -- driver_cases Ht D; inversion Ht; subst;
             destruct (handler_for_prefix e) as [c Hc];
             try (destruct (handler_for_prefix e0) as [c0 Hc0]);
             try (destruct (handler_for_prefix e1) as [c1 Hc1]);
             rewrite ?Hc, ?Hc0, ?Hc1 in Hr; cbn in Hr; inversion Hr; subst; cbn;
             repeat split; intros; congruence.
      * driver_cases Ht D; inversion Ht; subst;
          destruct (handler_for_prefix e) as [c Hc];
          try (destruct (handler_for_prefix e0) as [c0 Hc0]);
          try (destruct (handler_for_prefix e1) as [c1 Hc1]);
          rewrite ?Hc, ?Hc0, ?Hc1 in Hr; cbn in Hr; inversion Hr; subst; cbn;
          repeat split; intros; congruence.
    + driver_cases Ht D; inversion Ht; subst;
        destruct (handler_for_prefix e) as [c Hc];
        try (destruct (handler_for_prefix e0) as [c0 Hc0]);
        rewrite ?Hc, ?Hc0 in Hr; cbn in Hr; inversion Hr; subst; cbn;
        repeat split; intros; congruence.
  - inversion Ht; subst. destruct (handler_for_prefix e) as [c Hc].
    rewrite Hc in Hr. cbn in Hr. inversion Hr; subst. cbn.
    repeat split; intros; congruence.
Qed.

(** ** Commits *)

Ltac reduce_block H :=
  cbn [counting_commits beside connect cursor execute commit cursor_exit connection_exit
       world out trace result fst snd app success error_message rows_updated] in H.

Ltac counted_cases H D :=
  repeat (first
    [ match type of H with
      | context [connect D ?a ?c] => destruct (connect D a c) as [[[] | ?] ?]
      end
    | match type of H with
      | context [cursor D ?c] => destruct (cursor D c) as [[[] | ?] ?]
      end
    | match type of H with
      | context [execute D ?a ?b ?c] => destruct (execute D a b c) as [[? | ?] ?]
      end
    | match type of H with
      | context [commit D ?c] => destruct (commit D c) as [[[] | ?] ?]
      end
    | match type of H with
      | context [cursor_exit D ?b ?c] => destruct (cursor_exit D b c) as [[[] | ?] ?]
      end
    | match type of H with
      | context [connection_exit D ?b ?c] =>
          destruct (connection_exit D b c) as [[[] | ?] ?]
      end ];
    reduce_block H).

(** X11: [success] says whether the commit returned: a result with
    [success] false leaves the count of commits as it was, a result with
    [success] true comes after exactly one. *)
Lemma success_tracks_commit :
  forall (W : Type) (P : Platform) (D : Driver W) cs sp params (w : W) (n : nat) r s,
    execute_stored_procedure P (counting_commits D) cs sp params (w, n) = (Return r, s) ->
    snd (world s) = if success r then S n else n.
Proof.
  intros W P D cs sp params w n r s Hr.
  unfold execute_stored_procedure in Hr.
  destruct (try_block P (counting_commits D) cs sp params (start (w, n))) as [o f] eqn:Ht.
  unfold try_block, run_statement, with_, bind, outside_of, call, print, set_result,
    ret, raise, eval, start in Ht.
  reduce_block Ht.
  destruct params as [[| kv l] |];
    try (destruct (convert_params P (kv :: l) []) as [vals | ?]);
    counted_cases Ht D; inversion Ht; subst;
    try match type of Hr with
        | context [handler_for ?e] =>
            let c := fresh "c" in
            let Hc := fresh "Hc" in
            destruct (handler_for_prefix e) as [c Hc]; rewrite Hc in Hr
        end;
    inversion Hr; subst; reflexivity.
Qed.

(** ** Characters *)

Lemma eqb_code : forall c d : ascii, Ascii.eqb c d = (code c =? code d)%nat.
Proof.
  intros c d. destruct (Ascii.eqb_spec c d) as [-> | Hn].
  - now rewrite Nat.eqb_refl.
  - symmetry. apply Nat.eqb_neq. intros H. apply Hn.
    unfold code in H. rewrite <- (ascii_nat_embedding c), <- (ascii_nat_embedding d).
    now rewrite H.
Qed.

Lemma code_lt_256 : forall c, (code c < 256)%nat.
Proof. intros c. apply nat_ascii_bounded. Qed.

(** Boolean tests on code points, as arithmetic. *)
Ltac char_arith :=
  unfold int_literal_char, buffer_char, is_digit, py_isspace, unicode_isspace_high,
    is_ascii_char, is_line_feed in *;
  rewrite ?eqb_code in *;
  change (code "_"%char) with 95%nat in *;
  change (code "+"%char) with 43%nat in *;
  change (code "-"%char) with 45%nat in *;
  change (code "?"%char) with 63%nat in *;
  change (code " "%char) with 32%nat in *;
  repeat match goal with
         | |- context [code ?c] =>
             let n := fresh "n" in
             is_var c; pose proof (code_lt_256 c); generalize dependent (code c); intros n ?
         end;
  repeat match goal with
         | H : context [(?a <=? ?b)%nat] |- _ => destruct (Nat.leb_spec a b)
         | H : context [(?a <? ?b)%nat] |- _ => destruct (Nat.ltb_spec a b)
         | H : context [(?a =? ?b)%nat] |- _ => destruct (Nat.eqb_spec a b)
         | |- context [(?a <=? ?b)%nat] => destruct (Nat.leb_spec a b)
         | |- context [(?a <? ?b)%nat] => destruct (Nat.ltb_spec a b)
         | |- context [(?a =? ?b)%nat] => destruct (Nat.eqb_spec a b)
         end;
  cbn in *; try reflexivity; try discriminate; try lia.


Lemma digit_not_space : forall c, is_digit c = true -> py_isspace c = false.
Proof. intros c H. char_arith. Qed.

Lemma digit_is_ascii : forall c, is_digit c = true -> is_ascii_char c = true.
Proof. intros c H. char_arith. Qed.

Lemma digit_not_sign :
  forall c, is_digit c = true ->
            Ascii.eqb c "+"%char = false /\ Ascii.eqb c "-"%char = false
            /\ Ascii.eqb c "_"%char = false.
Proof. intros c H. repeat split; char_arith. Qed.


Lemma space_not_digit : forall c, py_isspace c = true -> is_digit c = false.
Proof. intros c H. char_arith. Qed.

(** ** [int] on text *)

Arguments int_max_str_digits : simpl never.

Lemma forallb_digits_ascii :
  forall s, string_forallb is_digit s = true -> string_forallb is_ascii_char s = true.
Proof.
  induction s as [| c r IH]; cbn [string_forallb]; [reflexivity |].
  intros H. apply andb_true_iff in H as [Hc Hr].
  now rewrite (digit_is_ascii _ Hc), (IH Hr).
Qed.

Lemma scan_digits_all_digits :
  forall s acc n,
    string_forallb is_digit s = true ->
    scan_digits s false acc n = Some (horner s acc, (n + String.length s)%nat, EmptyString).
Proof.
  induction s as [| c r IH]; intros acc n H; cbn [scan_digits horner String.length].
  - now rewrite Nat.add_0_r.
  - cbn [string_forallb] in H. apply andb_true_iff in H as [Hc Hr].
    rewrite Hc, (IH _ _ Hr). now rewrite Nat.add_succ_r.
Qed.

(** A run of digits within the limit is read as its value. *)
Lemma parse_digits_digits :
  forall negative c r,
    string_forallb is_digit (String c r) = true ->
    (String.length (String c r) <= int_max_str_digits)%nat ->
    parse_digits negative (String c r)
    = Some (if negative then - horner (String c r) 0 else horner (String c r) 0).
Proof.
  intros negative c r H Hlen. pose proof H as Hall.
  cbn [string_forallb] in H. apply andb_true_iff in H as [Hc Hr].
  destruct (digit_not_sign _ Hc) as [Hplus [Hminus Hus]].
  unfold parse_digits. rewrite Hus, (scan_digits_all_digits _ 0 0%nat Hall).
  cbn [Nat.add String.length Nat.eqb drop_while is_empty negb].
  apply Nat.ltb_ge in Hlen. cbn [String.length] in Hlen. now rewrite Hlen.
Qed.

Lemma parse_int_digits :
  forall s,
    s <> EmptyString ->
    string_forallb is_digit s = true ->
    (String.length s <= int_max_str_digits)%nat ->
    parse_int s = Some (horner s 0)
    /\ parse_int (String "-"%char s) = Some (- horner s 0).
Proof.
  intros [| c r] Hne H Hlen; [congruence |].
  pose proof H as Hall. cbn [string_forallb] in H. apply andb_true_iff in H as [Hc Hr].
  destruct (digit_not_sign _ Hc) as [Hplus [Hminus Hus]].
  split.
  - unfold parse_int, transform_decimal_and_space.
    rewrite (forallb_digits_ascii _ Hall). unfold parse_ascii. cbn [drop_while].
    rewrite (digit_not_space _ Hc), Hplus, Hminus.
    exact (parse_digits_digits false c r Hall Hlen).
  - assert (Ha : string_forallb is_ascii_char (String "-"%char (String c r)) = true).
    { change (string_forallb is_ascii_char (String "-"%char (String c r)))
        with (string_forallb is_ascii_char (String c r)).
      now apply forallb_digits_ascii. }
    unfold parse_int, transform_decimal_and_space. rewrite Ha.
    exact (parse_digits_digits true c r Hall Hlen).
Qed.















(** ** [json.dumps] *)

Lemma json_escape_char_literal :
  forall c, (32 <= code c)%nat -> code c <> 34%nat -> code c <> 92%nat ->
            json_escape_char false c = String c EmptyString.
Proof.
  intros c H32 H34 H92. unfold json_escape_char. cbn zeta.
  repeat match goal with
         | |- context [(?a =? ?b)%nat] => destruct (Nat.eqb_spec a b); [lia |]
         | |- context [(?a <? ?b)%nat] => destruct (Nat.ltb_spec a b); [lia |]
         end.
  reflexivity.
Qed.

Lemma json_escape_app :
  forall ensure_ascii a b,
    json_escape ensure_ascii (a ++ b)
    = json_escape ensure_ascii a ++ json_escape ensure_ascii b.
Proof.
  intros ea a b; induction a as [| c r IH]; cbn [String.append json_escape];
    [reflexivity |].
  now rewrite IH, append_assoc.
Qed.

Lemma json_escape_non_ascii :
  forall s, string_forallb (fun c => negb (is_ascii_char c)) s = true ->
            json_escape false s = s.
Proof.
  induction s as [| c r IH]; cbn [string_forallb json_escape]; intros H; [reflexivity |].
  apply andb_true_iff in H as [Hc Hr]. rewrite (IH Hr).
  rewrite json_escape_char_literal; [reflexivity | | |];
    apply negb_true_iff in Hc; unfold is_ascii_char in Hc;
    apply Nat.ltb_ge in Hc; lia.
Qed.

Lemma single_line_app :
  forall a b, single_line (a ++ b) = single_line a && single_line b.
Proof.
  unfold single_line. induction a as [| c r IH]; intros b;
    cbn [String.append string_forallb]; [reflexivity |].
  now rewrite IH, andb_assoc.
Qed.

Lemma single_line_concat :
  forall sep ts,
    single_line sep = true ->
    Forall (fun t => single_line t = true) ts ->
    single_line (String.concat sep ts) = true.
Proof.
  intros sep ts Hsep H; induction H as [| t r Ht Hr IH]; [reflexivity |].
  cbn [String.concat]. destruct r as [| t' r']; [exact Ht |].
  now rewrite !single_line_app, Ht, Hsep, IH.
Qed.

Lemma hex_digit_not_line_feed :
  forall k, (k < 16)%nat -> is_line_feed (hex_digit k) = false.
Proof.
  intros k Hk. do 16 (destruct k as [| k]; [reflexivity |]). lia.
Qed.

Lemma single_line_hex2 : forall c, single_line (hex2 c) = true.
Proof.
  intros c. unfold hex2, single_line. cbn [string_forallb].
  rewrite !hex_digit_not_line_feed; [reflexivity | |].
  - apply Nat.mod_upper_bound. lia.
  - apply Nat.Div0.div_lt_upper_bound. pose proof (code_lt_256 c). lia.
Qed.

Lemma single_line_escape_char :
  forall ensure_ascii c, single_line (json_escape_char ensure_ascii c) = true.
Proof.
  intros ea c. unfold json_escape_char. cbn zeta.
  repeat match goal with
         | |- context [(?a =? ?b)%nat] => destruct (Nat.eqb_spec a b); [reflexivity |]
         end.
  destruct (code c <? 32)%nat.
  { rewrite !single_line_app, single_line_hex2. reflexivity. }
  destruct (ea && (126 <? code c)%nat).
  { rewrite !single_line_app, single_line_hex2. reflexivity. }
  unfold single_line, is_line_feed. cbn [string_forallb].
  destruct (Nat.eqb_spec (code c) 10); [contradiction | reflexivity].
Qed.

Lemma single_line_escape :
  forall ensure_ascii s, single_line (json_escape ensure_ascii s) = true.
Proof.
  intros ea; induction s as [| c r IH]; cbn [json_escape]; [reflexivity |].
  now rewrite single_line_app, single_line_escape_char, IH.
Qed.

Lemma single_line_json_string :
  forall ensure_ascii s, single_line (json_string ensure_ascii s) = true.
Proof.
  intros ea s. unfold json_string.
  now rewrite !single_line_app, single_line_escape.
Qed.

Lemma single_line_uint : forall d, single_line (NilEmpty.string_of_uint d) = true.
Proof.
  induction d; cbn [NilEmpty.string_of_uint]; try reflexivity; exact IHd.
Qed.

Lemma single_line_nilzero : forall d, single_line (NilZero.string_of_uint d) = true.
Proof.
  intros d. unfold NilZero.string_of_uint.
  destruct d; try reflexivity; apply single_line_uint.
Qed.

Lemma single_line_decimal : forall z, single_line (decimal z) = true.
Proof.
  intros z. unfold decimal, NilZero.string_of_int.
  destruct (Z.to_int z) as [d | d]; exact (single_line_nilzero d).
Qed.

Lemma single_line_int_repr :
  forall P b z t, int_repr P b z = Return t -> single_line t = true.
Proof.
  intros P b z t H. unfold int_repr in H.
  destruct (int_max_str_digits <? ndigits z)%nat; [discriminate |].
  inversion H; subst. apply single_line_decimal.
Qed.

Lemma single_line_json_float :
  forall P f,
    (forall g, single_line (float_repr P g) = true) ->
    single_line (json_float P f) = true.
Proof.
  intros P f H. destruct f as [s | [|] | | s m e]; cbn [json_float];
    try reflexivity; apply H.
Qed.

Lemma single_line_enclosed :
  forall (opening : ascii) closing ts,
    is_line_feed opening = false ->
    single_line closing = true ->
    Forall (fun t => single_line t = true) ts ->
    single_line (String opening (String.concat ", " ts ++ closing)) = true.
Proof.
  intros opening closing ts Ho Hc Hts.
  change (String opening (String.concat ", " ts ++ closing))
    with (String opening EmptyString ++ (String.concat ", " ts ++ closing)).
  rewrite !single_line_app, Hc, (single_line_concat ", " ts eq_refl Hts).
  unfold single_line. cbn [string_forallb]. now rewrite Ho.
Qed.

Lemma sequence_returns :
  forall (A : Type) (l : list (outcome A)) (ts : list A),
    sequence l = Return ts -> Forall2 (fun o t => o = Return t) l ts.
Proof.
  intros A l; induction l as [| o r IH]; intros ts H; cbn [sequence] in H.
  - inversion H; constructor.
  - destruct o as [a |]; cbn [obind] in H; [| discriminate].
    destruct (sequence r) as [rest |]; cbn [obind] in H; [| discriminate].
    inversion H; subst. constructor; [reflexivity | now apply IH].
Qed.

(** The text of a value holds no line feed: the separators are [", "] and
    [": "], nothing is indented, and line feeds inside strings are
    escaped. *)
Lemma json_encode_single_line :
  forall P ensure_ascii,
    (forall g, single_line (float_repr P g) = true) ->
    forall v t, json_encode P ensure_ascii v = Return t -> single_line t = true.
Proof.
  intros P ea Hf v.
  assert (Hseq : forall (xs : list pyval) (ts : list string),
             Forall (fun x => forall t, json_encode P ea x = Return t ->
                                        single_line t = true) xs ->
             sequence (map (json_encode P ea) xs) = Return ts ->
             Forall (fun t => single_line t = true) ts).
  { intros xs ts Hxs Hts. apply sequence_returns in Hts. revert ts Hts.
    induction Hxs as [| x r Hx Hr IH]; intros ts Hts; cbn [map] in Hts;
      inversion Hts; subst; constructor; auto. }
  induction v using pyval_nested_ind; intros t Ht; cbn [json_encode] in Ht.
  - inversion Ht; reflexivity.
  - inversion Ht; destruct b; reflexivity.
  - exact (single_line_int_repr _ _ _ _ Ht).
  - inversion Ht; subst. now apply single_line_json_float.
  - inversion Ht; subst. apply single_line_json_string.
  - destruct (sequence (map (json_encode P ea) xs)) as [ts |] eqn:Hts;
      cbn in Ht; [| discriminate].
    inversion Ht; subst.
    apply single_line_enclosed; [reflexivity | reflexivity | exact (Hseq _ _ H Hts)].
  - destruct (sequence (map (json_encode P ea) xs)) as [ts |] eqn:Hts;
      cbn in Ht; [| discriminate].
    inversion Ht; subst.
    apply single_line_enclosed; [reflexivity | reflexivity | exact (Hseq _ _ H Hts)].
  - match type of Ht with
    | omap _ ?m = _ => destruct m as [ts |] eqn:Hts; cbn in Ht; [| discriminate]
    end.
    inversion Ht; subst.
    apply single_line_enclosed; [reflexivity | reflexivity |].
    apply sequence_returns in Hts. clear Ht. revert ts Hts.
    induction H as [| [k x] r [_ Hx] Hr IH]; intros ts Hts; cbn [map] in Hts;
      inversion Hts; subst; constructor; auto.
    destruct (json_key P k) as [ks |]; cbn [obind] in *; [| discriminate].
    destruct (json_encode P ea x) as [tx |] eqn:Hx'; cbn [obind] in *; [| discriminate].
    match goal with
    | E : Return _ = Return _ |- _ => inversion E; subst
    end.
    change (single_line (json_string ea ks ++ ": " ++ tx) = true).
    rewrite !single_line_app, single_line_json_string, (Hx _ Hx'). reflexivity.
  - discriminate.
Qed.

(** *** Classes of characters in a text *)


Lemma string_forallb_app :
  forall p a b, string_forallb p (a ++ b) = string_forallb p a && string_forallb p b.
Proof.
  intros p; induction a as [| c r IH]; intros b; cbn [String.append string_forallb];
    [reflexivity |].
  now rewrite IH, andb_assoc.
Qed.


Lemma string_forallb_concat :
  forall p sep ts,
    string_forallb p sep = true ->
    Forall (fun t => string_forallb p t = true) ts ->
    string_forallb p (String.concat sep ts) = true.
Proof.
  intros p sep ts Hsep H; induction H as [| t r Ht Hr IH]; [reflexivity |].
  cbn [String.concat]. destruct r as [| t' r']; [exact Ht |].
  now rewrite !string_forallb_app, Ht, Hsep, IH.
Qed.











(** *** Reading a string literal back *)



(** *** The encoder, case by case *)


Section EncodeCases.

Variable P : Platform.
Variable ensure_ascii : bool.
Variable R : pyval -> string -> Prop.

Hypothesis RNone : R PyNone "null".
Hypothesis RBool : forall b, R (PyBool b) (if b then "true" else "false").
Hypothesis RInt :
  forall z, (ndigits z <= int_max_str_digits)%nat -> R (PyInt z) (decimal z).
Hypothesis RFloat : forall f, R (PyFloat f) (json_float P f).
Hypothesis RStr : forall s, R (PyStr s) (json_string ensure_ascii s).
Hypothesis RList :
  forall xs ts, Forall2 R xs ts -> R (PyList xs) ("[" ++ String.concat ", " ts ++ "]").
Hypothesis RTuple :
  forall xs ts, Forall2 R xs ts -> R (PyTuple xs) ("[" ++ String.concat ", " ts ++ "]").
Hypothesis RDict :
  forall items ts,
    Forall2 (fun kv t =>
               exists ks tv,
                 json_key P (fst kv) = Return ks /\ R (snd kv) tv
                 /\ t = json_string ensure_ascii ks ++ ": " ++ tv) items ts ->
    R (PyDict items) ("{" ++ String.concat ", " ts ++ "}").


End EncodeCases.







(** ** Coercion by type tag *)


(** *** [float] *)




Lemma is_empty_app :
  forall a b, a <> EmptyString -> is_empty (a ++ b) = false.
Proof. intros [| c a] b H; [congruence | reflexivity]. Qed.

Lemma digit_not_point : forall c, is_digit c = true -> Ascii.eqb c "."%char = false.
Proof.
  intros c H. rewrite eqb_code. change (code "."%char) with 46%nat.
  unfold is_digit in H. apply andb_true_iff in H as [H1 H2].
  apply Nat.leb_le in H1. apply Nat.eqb_neq. lia.
Qed.






















(** *** [isoparse] *)





Lemma digit_not_colon :
  forall c, is_digit c = true -> String.eqb (String c EmptyString) ":" = false.
Proof.
  intros c H. cbn [String.eqb]. rewrite eqb_code. change (code ":"%char) with 58%nat.
  unfold is_digit in H. apply andb_true_iff in H as [H1 H2].
  apply Nat.leb_le in H1, H2. destruct (Nat.eqb_spec (code c) 58); [lia | reflexivity].
Qed.








(** The claim of C6 fails where the tag cannot be hashed: the lookup in the
    table raises [TypeError], nothing is passed through, and the call ends in
    the handler of [Exception]. *)
Lemma unhashable_tag_is_refused :
  convert_param sample_platform (PyTuple [PyList [PyStr "int"]; PyStr "7"])
  = Raise (mkExn TypeError "unhashable type: 'list'")
  /\ convert_param sample_platform (PyTuple [PyList [PyStr "int"]; PyStr "7"])
     <> Return (PyStr "7")
  /\ fst (execute_stored_procedure sample_platform (quiet_driver 0 []) "dsn" "proc"
            (Some [("A", PyTuple [PyList [PyStr "int"]; PyStr "7"])]) fresh_world)
     = Return (mkResult false (Some "An unexpected error occurred: unhashable type: 'list'")
                 None).
Proof.
  split; [reflexivity |]. split; [discriminate | reflexivity].
Qed.

(** ** Instances with every hypothesis discharged *)

Lemma no_params_success_witness :
  exists r,
    fst (execute_stored_procedure sample_platform (quiet_driver 0 []) "dsn"
           "RPA.journalizing.sp_UpdatePurgeMarker" None fresh_world) = Return r
    /\ success r = true
    /\ rows_updated r = Some 0.
Proof.
  apply (no_params_success sample_world sample_platform (quiet_driver 0 []) "dsn"
           "RPA.journalizing.sp_UpdatePurgeMarker" None
           fresh_world (mkWorld 1 0) (mkWorld 1 0) (mkWorld 1 0) (mkWorld 1 1) 0);
    reflexivity.
Defined.

Lemma statement_follows_parameter_order_witness :
  exists rest,
    received (execute_stored_procedure sample_platform (recording (quiet_driver 1 []))
                "dsn" "proc"
                (Some [("A", PyTuple [PyStr "int"; PyStr "1"]);
                       ("B", PyTuple [PyStr "str"; PyStr "x"])]) (fresh_world, []))
    = EvConnect (PyStr "dsn") :: EvCursor
        :: EvExecute "EXEC proc @A = ?, @B = ?" [PyInt 1; PyStr "x"] :: rest
    /\ filter sends_statement rest = [].
Proof.
  apply (proj1 (statement_follows_parameter_order sample_world sample_platform
                  (quiet_driver 1 []) "dsn" "proc"
                  (Some [("A", PyTuple [PyStr "int"; PyStr "1"]);
                         ("B", PyTuple [PyStr "str"; PyStr "x"])])
                  fresh_world (mkWorld 1 0) (mkWorld 1 0) [PyInt 1; PyStr "x"]
                  eq_refl eq_refl eq_refl)).
Defined.


(** * Further properties *)

(** ** The result on every path *)

Ltac every_path H D :=
  repeat match type of H with
         | context [connect D ?a ?c] =>
             destruct (connect D a c) as [[[] | ?] ?]; cbn in H
         | context [cursor D ?c] =>
             destruct (cursor D c) as [[[] | ?] ?]; cbn in H
         | context [execute D ?a ?b ?c] =>
             destruct (execute D a b c) as [[? | ?] ?]; cbn in H
         | context [commit D ?c] =>
             destruct (commit D c) as [[[] | ?] ?]; cbn in H
         | context [cursor_exit D ?b ?c] =>
             destruct (cursor_exit D b c) as [[[] | ?] ?]; cbn in H
         | context [connection_exit D ?b ?c] =>
             destruct (connection_exit D b c) as [[[] | ?] ?]; cbn in H
         end.

(** Every path of the [try] block, for any driver: [Ht] is the equation of
    the block, kept as [Hblock] and unfolded along each path. *)
Ltac block_paths P D Ht params :=
  pose proof Ht as Hblock;
  open_block Ht;
  destruct params as [[| ?kv ?l] |];
  try match type of Ht with
      | context [convert_params P ?items []] =>
          destruct (convert_params P items []) as [?vals | ?] eqn:?Hconv
      end;
  cbn in Ht;
  every_path Ht D;
  inversion Ht; subst; close_block.

(** X1: no exception leaves the call, and on every path the result keeps
    half of what its keys promise: a result with [success] false carries an
    error message and no [rows_updated]; a result without an error message
    has [success] true and [rows_updated]. *)
Theorem result_keys_on_every_path :
  forall (W : Type) (P : Platform) (D : Driver W) (cs sp : string)
         (params : option (list (string * pyval))) (w : W),
  exists r,
    fst (execute_stored_procedure P D cs sp params w) = Return r
    /\ (success r = false -> error_message r <> None /\ rows_updated r = None)
    /\ (rows_updated r <> None -> success r = true)
    /\ (error_message r = None -> success r = true /\ rows_updated r <> None).
Proof.
  intros W P D cs sp params w.
  destruct (try_block P D cs sp params (start w)) as [o s] eqn:Ht.
  block_paths P D Ht params; cbn; eexists; (split; [reflexivity |]); cbn;
    repeat split; intros; congruence.
Qed.

(** ** The scopes of the connection and of the cursor *)



(** ** The conversion loop, first of all *)

(** X3: the loop over the parameters ends at the first entry that fails: it
    raises [e] exactly when the entries before some entry all convert and
    that entry raises [e], whatever the entries after it. *)
Theorem conversion_stops_at_first_failure :
  forall (P : Platform) (items : list (string * pyval)) (e : exn),
    convert_params P items [] = Raise e
    <-> exists good k value rest vs,
          items = (good ++ (k, value) :: rest)%list
          /\ convert_params P good [] = Return vs
          /\ convert_param P value = Raise e.
Proof.
  intros P items e. split.
  - assert (H : forall acc,
               convert_params P items acc = Raise e ->
               exists good k value rest vs,
                 items = (good ++ (k, value) :: rest)%list
                 /\ convert_params P good acc = Return vs
                 /\ convert_param P value = Raise e).
    { induction items as [| [k value] r IH]; intros acc H.
      - rewrite convert_params_nil in H. discriminate.
      - rewrite convert_params_cons in H.
        destruct (convert_param P value) as [v | e'] eqn:Hv; cbn [obind] in H.
        + destruct (IH _ H) as (good & k' & value' & rest & vs & Hi & Hg & Hb).
          exists ((k, value) :: good), k', value', rest, vs. subst r.
          split; [reflexivity |]. split; [| exact Hb].
          rewrite convert_params_cons, Hv. exact Hg.
        + inversion H; subst e'.
          exists [], k, value, r, acc. repeat split; assumption. }
    apply H.
  - intros (good & k & value & rest & vs & Hi & Hg & Hb). subst items.
    rewrite convert_params_app, Hg. cbn [obind].
    rewrite convert_params_cons, Hb. reflexivity.
Qed.

(** X4: when a parameter fails to convert, whatever the driver does, no
    statement is sent and nothing is committed, and the result has [success]
    false and no [rows_updated]. *)
Theorem failed_conversion_sends_nothing :
  forall (W : Type) (P : Platform) (D : Driver W) (cs sp : string)
         (kv : string * pyval) (l : list (string * pyval)) (w : W) (e : exn),
    convert_params P (kv :: l) [] = Raise e ->
    forallb (fun ev => negb (touches_data ev))
      (trace (snd (execute_stored_procedure P D cs sp (Some (kv :: l)) w))) = true
    /\ exists r,
         fst (execute_stored_procedure P D cs sp (Some (kv :: l)) w) = Return r
         /\ success r = false
         /\ rows_updated r = None.
Proof.
  intros W P D cs sp kv l w e Hv.
  destruct (try_block P D cs sp (Some (kv :: l)) (start w)) as [o s] eqn:Ht.
  pose proof Ht as Hblock. open_block Ht.
  rewrite Hv in Ht. cbn in Ht.
  every_path Ht D; inversion Ht; subst; close_block; cbn;
    (split; [reflexivity | eexists; repeat split; reflexivity]).
Qed.

Lemma failed_conversion_sends_nothing_witness :
  forallb (fun ev => negb (touches_data ev))
    (trace (snd (execute_stored_procedure sample_platform (quiet_driver 0 []) "dsn" "proc"
                   (Some [("A", PyTuple [PyStr "int"; PyStr "1"]);
                          ("B", PyTuple [PyStr "int"; PyStr "one"])]) fresh_world)))
  = true
  /\ exists r,
       fst (execute_stored_procedure sample_platform (quiet_driver 0 []) "dsn" "proc"
              (Some [("A", PyTuple [PyStr "int"; PyStr "1"]);
                     ("B", PyTuple [PyStr "int"; PyStr "one"])]) fresh_world) = Return r
       /\ success r = false
       /\ rows_updated r = None.
Proof.
  apply (failed_conversion_sends_nothing sample_world sample_platform (quiet_driver 0 [])
           "dsn" "proc" ("A", PyTuple [PyStr "int"; PyStr "1"])
           [("B", PyTuple [PyStr "int"; PyStr "one"])] fresh_world
           (mkExn ValueError "invalid literal for int() with base 10: 'one'")).
  reflexivity.
Defined.

(** ** What [list_stored_procedures] asks of the driver *)

(** X7: whatever the driver does and whatever the environment holds,
    [list_stored_procedures] connects first, sends no statement but the
    catalog query, without bound values, and never commits; and when it
    returns, the rows were fetched and the connection was closed. *)
Theorem listing_only_reads_catalog :
  forall (W : Type) (D : Driver W) (getenv : string -> option string) (w : W),
    (exists cs later,
        trace (snd (list_stored_procedures D getenv (mkOutside w [])))
        = EvConnect cs :: later
        /\ cs = match getenv "DbConnectionString" with
                | Some s => PyStr s
                | None => PyNone
                end)
    /\ Forall (fun ev =>
                 match ev with
                 | EvExecute sql args => sql = catalog_query /\ args = []
                 | EvCommit => False
                 | _ => True
                 end)
         (trace (snd (list_stored_procedures D getenv (mkOutside w []))))
    /\ (forall names,
           fst (list_stored_procedures D getenv (mkOutside w [])) = Return names ->
           In EvFetchall (trace (snd (list_stored_procedures D getenv (mkOutside w []))))
           /\ In EvClose (trace (snd (list_stored_procedures D getenv (mkOutside w []))))).
Proof.
  intros W D getenv w.
  destruct (list_stored_procedures D getenv (mkOutside w [])) as [o s] eqn:H.
  unfold list_stored_procedures, with_, bind, call, ret in H. cbn in H.
  repeat match type of H with
         | context [connect D ?a ?c] =>
             destruct (connect D a c) as [[[] | ?] ?]; cbn in H
         | context [cursor D ?c] =>
             destruct (cursor D c) as [[[] | ?] ?]; cbn in H
         | context [execute D ?a ?b ?c] =>
             destruct (execute D a b c) as [[? | ?] ?]; cbn in H
         | context [fetchall D ?c] =>
             destruct (fetchall D c) as [[? | ?] ?]; cbn in H
         | context [cursor_exit D ?b ?c] =>
             destruct (cursor_exit D b c) as [[[] | ?] ?]; cbn in H
         | context [close D ?c] =>
             destruct (close D c) as [[[] | ?] ?]; cbn in H
         end;
    inversion H; subst; cbn [fst snd trace];
    (split; [do 2 eexists; split; reflexivity |]);
    (split; [repeat constructor |]);
    intros names Hn; try discriminate Hn; cbn; tauto.
Qed.

Lemma list_stored_procedures_returns_witness :
  list_stored_procedures (quiet_driver 0 [mkRow "sp_a"; mkRow "sp_b"])
    (fun _ => Some "dsn") (mkOutside fresh_world [])
  = (Return ["sp_a"; "sp_b"],
     mkOutside fresh_world
       [ EvConnect (PyStr "dsn"); EvCursor; EvExecute catalog_query []; EvFetchall;
         EvCursorExit false; EvClose ]).
Proof.
  apply (list_stored_procedures_returns sample_world
           (quiet_driver 0 [mkRow "sp_a"; mkRow "sp_b"]) (fun _ => Some "dsn")
           fresh_world (mkWorld 1 0) (mkWorld 1 0) (mkWorld 1 0) (mkWorld 1 0)
           (mkWorld 1 0) fresh_world "dsn" 0 [mkRow "sp_a"; mkRow "sp_b"]);
    reflexivity.
Defined.

Lemma close_only_on_normal_path_witness :
  exists cs,
    trace (snd (list_stored_procedures (quiet_driver 0 [mkRow "sp_a"])
                  (fun _ => None) (mkOutside fresh_world [])))
    = [ EvConnect cs; EvCursor; EvExecute catalog_query []; EvFetchall;
        EvCursorExit false; EvClose ].
Proof.
  apply (close_only_on_normal_path sample_world (quiet_driver 0 [mkRow "sp_a"])
           (fun _ => None) fresh_world (Return ["sp_a"])
           (snd (list_stored_procedures (quiet_driver 0 [mkRow "sp_a"])
                   (fun _ => None) (mkOutside fresh_world [])))).
  - reflexivity.
  - cbn. tauto.
Defined.

(** ** Instances of the lemmas on commits and on the two branches *)

Lemma success_tracks_commit_witness :
  snd (world (snd (execute_stored_procedure sample_platform
                     (counting_commits (quiet_driver 4 [])) "dsn" "proc" None
                     (fresh_world, 0%nat))))
  = 1%nat
  /\ snd (world (snd (execute_stored_procedure sample_platform
                        (counting_commits (refusing_driver (mkExn PyodbcError "busy")))
                        "dsn" "proc" None (fresh_world, 7%nat))))
     = 7%nat.
Proof.
  split.
  - apply (success_tracks_commit sample_world sample_platform (quiet_driver 4 [])
             "dsn" "proc" None fresh_world 0%nat (mkResult true None (Some 4))).
    reflexivity.
  - apply (success_tracks_commit sample_world sample_platform
             (refusing_driver (mkExn PyodbcError "busy")) "dsn" "proc" None fresh_world
             7%nat (mkResult false (Some "Database error: busy") None)).
    reflexivity.
Defined.

Lemma result_well_formed_without_parameters_witness :
  (success (mkResult false (Some "Database error: busy") None) = true
   <-> error_message (mkResult false (Some "Database error: busy") None) = None)
  /\ (rows_updated (mkResult false (Some "Database error: busy") None) <> None
      <-> success (mkResult false (Some "Database error: busy") None) = true).
Proof.
  apply (result_well_formed_without_parameters sample_world sample_platform
           (refusing_driver (mkExn PyodbcError "busy")) "dsn" "proc" (Some [])
           fresh_world); reflexivity.
Defined.

(** ** A call with parameters *)

(** X5: a call with parameters never reports rows: whatever the values and
    whatever the driver does, its result has no [rows_updated] and has an
    error message. *)
Theorem parameters_never_report_rows :
  forall (W : Type) (P : Platform) (D : Driver W) (cs sp : string)
         (kv : string * pyval) (l : list (string * pyval)) (w : W),
  exists r msg,
    fst (execute_stored_procedure P D cs sp (Some (kv :: l)) w) = Return r
    /\ rows_updated r = None
    /\ error_message r = Some msg.
Proof.
  intros W P D cs sp kv l w.
  destruct (try_block P D cs sp (Some (kv :: l)) (start w)) as [o s] eqn:Ht.
  pose proof Ht as Hblock. open_block Ht.
  destruct (convert_params P (kv :: l) []) as [vals | ?]; cbn in Ht;
    every_path Ht D; inversion Ht; subst; close_block; cbn;
    do 2 eexists; repeat split; reflexivity.
Qed.

(** ** [str] and [int], one after the other *)

Lemma digits_of_uint :
  forall d, string_forallb is_digit (NilEmpty.string_of_uint d) = true.
Proof.
  induction d; cbn [NilEmpty.string_of_uint string_forallb]; try reflexivity;
    rewrite IHd; reflexivity.
Qed.

Lemma horner_of_uint_acc :
  forall d acc,
    horner (NilEmpty.string_of_uint d) (Zpos acc) = Zpos (Pos.of_uint_acc d acc).
Proof.
  induction d; intros acc; cbn [NilEmpty.string_of_uint horner Pos.of_uint_acc];
    try reflexivity;
    match goal with
    | |- horner _ ?a = Zpos (Pos.of_uint_acc _ ?b) =>
        replace a with (Zpos b)
          by (match goal with
              | |- context [digit_value ?c] =>
                  let v := eval vm_compute in (digit_value c) in
                  change (digit_value c) with v
              end; lia)
    end;
    apply IHd.
Qed.

Lemma horner_of_uint :
  forall d, horner (NilEmpty.string_of_uint d) 0 = Z.of_uint d.
Proof.
  unfold Z.of_uint.
  induction d; cbn [NilEmpty.string_of_uint horner Pos.of_uint]; try reflexivity;
    try exact IHd;
    match goal with
    | |- horner _ ?a = Z.of_N (N.pos (Pos.of_uint_acc _ ?b)) =>
        replace a with (Zpos b)
          by (match goal with
              | |- context [digit_value ?c] =>
                  let v := eval vm_compute in (digit_value c) in
                  change (digit_value c) with v
              end; lia)
    end;
    apply horner_of_uint_acc.
Qed.

Lemma nilzero_digits :
  forall d,
    NilZero.string_of_uint d <> EmptyString
    /\ string_forallb is_digit (NilZero.string_of_uint d) = true
    /\ horner (NilZero.string_of_uint d) 0 = Z.of_uint d.
Proof.
  intros d. unfold NilZero.string_of_uint.
  destruct d; (split; [cbn; discriminate |]);
    (split; [first [reflexivity | apply digits_of_uint] |]);
    first [reflexivity | apply horner_of_uint].
Qed.

Lemma parse_int_decimal :
  forall z, (ndigits z <= int_max_str_digits)%nat -> parse_int (decimal z) = Some z.
Proof.
  intros z Hn. rewrite <- (DecimalZ.of_to z) at 2.
  unfold decimal, ndigits in *.
  destruct z as [| p | p]; cbn [Z.to_int Z.abs_N N.to_uint NilZero.string_of_int Z.of_int]
    in *.
  - reflexivity.
  - destruct (nilzero_digits (Pos.to_uint p)) as (Hne & Hd & Hh).
    rewrite <- Hh. exact (proj1 (parse_int_digits _ Hne Hd Hn)).
  - destruct (nilzero_digits (Pos.to_uint p)) as (Hne & Hd & Hh).
    rewrite <- Hh. exact (proj2 (parse_int_digits _ Hne Hd Hn)).
Qed.

(** X6: an integer bound under ["str"] becomes its decimal text, and that
    text bound under ["int"] becomes the integer again, for every integer
    within the limit on digits; beyond the limit [str] raises
    [ValueError]. *)
Theorem str_then_int_round_trip :
  forall (P : Platform) (z : Z),
    ((ndigits z <= int_max_str_digits)%nat ->
     convert_param P (PyTuple [PyStr "str"; PyInt z]) = Return (PyStr (decimal z))
     /\ convert_param P (PyTuple [PyStr "int"; PyStr (decimal z)]) = Return (PyInt z))
    /\ ((int_max_str_digits < ndigits z)%nat ->
        convert_param P (PyTuple [PyStr "str"; PyInt z])
        = Raise (mkExn ValueError (exc_text P BStr (PyInt z)))).
Proof.
  intros P z. split; intros Hn.
  - split.
    + cbn. unfold int_repr. apply Nat.ltb_ge in Hn. now rewrite Hn.
    + cbn. now rewrite (parse_int_decimal z Hn).
  - cbn. unfold int_repr. apply Nat.ltb_lt in Hn. now rewrite Hn.
Qed.

Lemma str_then_int_round_trip_witness :
  convert_param sample_platform (PyTuple [PyStr "str"; PyInt (-2048)])
  = Return (PyStr "-2048")
  /\ convert_param sample_platform (PyTuple [PyStr "int"; PyStr "-2048"])
     = Return (PyInt (-2048)).
Proof.
  apply (proj1 (str_then_int_round_trip sample_platform (-2048))).
  unfold int_max_str_digits. cbn. lia.
Defined.

(** ** [main] *)

Lemma execute_on_str :
  forall (W : Type) (P : Platform) (D : Driver W) cs sp params (w : W),
    execute_on P D (PyStr cs) sp params w = execute_stored_procedure P D cs sp params w.
Proof. reflexivity. Qed.

Arguments handler_for : simpl never.
Arguments purge_procedure : simpl never.

(** Every path of [main], for any driver and any logging package: [H] is the
    equation of the run. *)
Ltac main_paths H D R :=
  unfold main, run_report, reporting, purge_call, execute_on, try_block_on, cursor_block,
    run_statement, with_, bind, outside_of, call, print, set_result, ret, raise, eval,
    start, heartbeat_running, log_info in H;
  cbn in H;
  repeat match type of H with
         | context [send_heartbeat R ?a ?b ?c ?d ?w] =>
             destruct (send_heartbeat R a b c d w) as [[[] | ?] ?]; cbn in H
         | context [log_event R ?a ?b ?c ?d ?e ?w] =>
             destruct (log_event R a b c d e w) as [[[] | ?] ?]; cbn in H
         | context [connect D ?a ?c] =>
             destruct (connect D a c) as [[[] | ?] ?]; cbn in H
         | context [cursor D ?c] =>
             destruct (cursor D c) as [[[] | ?] ?]; cbn in H
         | context [execute D ?a ?b ?c] =>
             destruct (execute D a b c) as [[? | ?] ?]; cbn in H
         | context [commit D ?c] =>
             destruct (commit D c) as [[[] | ?] ?]; cbn in H
         | context [cursor_exit D ?b ?c] =>
             destruct (cursor_exit D b c) as [[[] | ?] ?]; cbn in H
         | context [connection_exit D ?b ?c] =>
             destruct (connection_exit D b c) as [[[] | ?] ?]; cbn in H
         | context [handler_for ?e] =>
             let c := fresh "c" in
             let Hc := fresh "Hc" in
             destruct (handler_for_prefix e) as [c Hc]; rewrite Hc in H; clear Hc;
             cbn in H
         | context [int_repr ?P ?b ?n] =>
             unfold int_repr in H;
             destruct (int_max_str_digits <? ndigits n)%nat; cbn in H
         end.

(** X8: whatever the driver, the logging package and the environment do,
    [main] asks for the heartbeat first; it touches the database only after
    the heartbeat and then the first log event were asked for; and the only
    statement it ever sends is [EXEC RPA.journalizing.sp_UpdatePurgeMarker],
    at most once and without bound values. *)
Theorem main_sends_only_the_purge :
  forall (W : Type) (P : Platform) (D : Driver W) (R : Reporting W) (C : Config)
         (getenv : string -> option string) (w : W),
    (exists later,
        journal (snd (main P D R C getenv (mkSite w [])))
        = Reported (heartbeat_running C) :: later
        /\ forall ev, In (Driven ev) later ->
             exists after,
               later = Reported (log_info C "Running purge of database") :: after)
    /\ Forall (fun st =>
                 match st with
                 | Driven (EvExecute sql args) =>
                     sql = "EXEC RPA.journalizing.sp_UpdatePurgeMarker" /\ args = []
                 | _ => True
                 end)
         (journal (snd (main P D R C getenv (mkSite w []))))
    /\ (List.length
          (filter (fun st =>
                     match st with
                     | Driven (EvExecute _ _) => true
                     | _ => false
                     end)
             (journal (snd (main P D R C getenv (mkSite w [])))))
        <= 1)%nat.
Proof.
  intros W P D R C getenv w.
  destruct (main P D R C getenv (mkSite w [])) as [o s] eqn:H.
  main_paths H D R; inversion H; subst; cbn [snd journal];
    (split;
     [eexists; split;
      [reflexivity
      | intros ev Hin; cbn in Hin; try contradiction; eexists; reflexivity]
     |]);
    (split; [repeat constructor; auto |]); cbn; lia.
Qed.

Arguments execute_on : simpl never.

(** The result of the call [main] makes, for any driver and any connection
    string, [None] included. *)
Lemma purge_result_keys :
  forall (W : Type) (P : Platform) (D : Driver W) (connection : pyval) (sp : string)
         (w : W),
  exists r d,
    execute_on P D connection sp None w = (Return r, d)
    /\ (success r = false -> rows_updated r = None /\ error_message r <> None)
    /\ (success r = true -> exists n, rows_updated r = Some n).
Proof.
  intros W P D connection sp w. unfold execute_on.
  destruct (try_block_on P D connection sp None (start w)) as [o s] eqn:Ht.
  unfold try_block_on, cursor_block, run_statement, with_, bind, outside_of, call, print,
    set_result, ret, raise, eval, start in Ht.
  cbn in Ht. every_path Ht D; inversion Ht; subst;
    try match goal with
        | |- context [handler_for ?e] =>
            let c := fresh "c" in
            let Hc := fresh "Hc" in
            destruct (handler_for_prefix e) as [c Hc]; rewrite Hc
        end;
    do 2 eexists; (split; [reflexivity |]); cbn;
    split; intros; try discriminate; try (split; congruence); eauto.
Qed.

(** X9: when the purge does not succeed, [main] ends with the [KeyError] of
    [res["rows_updated"]]: the call's error message is neither raised nor
    logged, and no log event follows the first one. *)
Theorem main_raises_key_error :
  forall (W : Type) (P : Platform) (D : Driver W) (R : Reporting W) (C : Config)
         (getenv : string -> option string) (w w1 w2 : W) (r : result_dict)
         (d : outside W),
    send_heartbeat R "SQL data base purge" "RUNNING" "" (ENV C) w = (Return tt, w1) ->
    log_event R (LOG_DB C) "INFO" "Running purge of database" (LOG_CONTEXT C) (ENV C) w1
    = (Return tt, w2) ->
    execute_on P D
      match getenv "DbConnectionString" with
      | Some s => PyStr s
      | None => PyNone
      end purge_procedure None w2 = (Return r, d) ->
    success r = false ->
    main P D R C getenv (mkSite w [])
    = (Raise key_error_rows_updated,
       mkSite (world d)
         (Reported (heartbeat_running C)
            :: Reported (log_info C "Running purge of database")
            :: map Driven (trace d)))
    /\ error_message r <> None.
Proof.
  intros W P D R C getenv w w1 w2 r d Hh Hl He Hs.
  destruct (purge_result_keys W P D
              match getenv "DbConnectionString" with
              | Some s => PyStr s
              | None => PyNone
              end purge_procedure w2) as (r' & d' & He' & Hf & _).
  rewrite He in He'. inversion He'; subst r' d'. destruct (Hf Hs) as [Hr Hm].
  split; [| exact Hm].
  unfold main, run_report, reporting, purge_call, bind, eval, heartbeat_running, log_info.
  cbn. rewrite Hh. cbn. rewrite Hl. cbn. rewrite He. cbn. rewrite Hr. reflexivity.
Qed.

Lemma main_raises_key_error_witness :
  main sample_platform (refusing_driver (mkExn PyodbcError "('42000', 'denied')"))
    (quiet_reporting sample_world) sample_config (fun _ => None) (mkSite fresh_world [])
  = (Raise key_error_rows_updated,
     mkSite (mkWorld 1 0)
       [ Reported (Heartbeat "SQL data base purge" "RUNNING" "" (PyStr "PROD"));
         Reported (LogEvent (PyStr "LogDb") "INFO" "Running purge of database"
                     (PyStr "purge") (PyStr "PROD"));
         Driven (EvConnect PyNone); Driven EvCursor;
         Driven (EvExecute "EXEC RPA.journalizing.sp_UpdatePurgeMarker" []);
         Driven (EvCursorExit true); Driven (EvConnectionExit true) ]).
Proof.
  apply (proj1 (main_raises_key_error sample_world sample_platform
                  (refusing_driver (mkExn PyodbcError "('42000', 'denied')"))
                  (quiet_reporting sample_world) sample_config (fun _ => None)
                  fresh_world fresh_world fresh_world
                  (mkResult false (Some "Database error: ('42000', 'denied')") None)
                  _ eq_refl eq_refl eq_refl eq_refl)).
Defined.

(** X10: when the purge succeeds, [main] logs the number of rows the cursor
    reported, as ["Purged <n> forms"], as its last act - also when an exit
    of the [with] statements raised after the commit and the result carries
    an error message. *)
Theorem main_logs_rowcount :
  forall (W : Type) (P : Platform) (D : Driver W) (R : Reporting W) (C : Config)
         (getenv : string -> option string) (w w1 w2 w3 : W) (r : result_dict)
         (d : outside W),
    send_heartbeat R "SQL data base purge" "RUNNING" "" (ENV C) w = (Return tt, w1) ->
    log_event R (LOG_DB C) "INFO" "Running purge of database" (LOG_CONTEXT C) (ENV C) w1
    = (Return tt, w2) ->
    execute_on P D
      match getenv "DbConnectionString" with
      | Some s => PyStr s
      | None => PyNone
      end purge_procedure None w2 = (Return r, d) ->
    success r = true ->
    exists n,
      rows_updated r = Some n
      /\ ((ndigits n <= int_max_str_digits)%nat ->
          log_event R (LOG_DB C) "INFO" ("Purged " ++ decimal n ++ " forms")
            (LOG_CONTEXT C) (ENV C) (world d) = (Return tt, w3) ->
          main P D R C getenv (mkSite w [])
          = (Return tt,
             mkSite w3
               (Reported (heartbeat_running C)
                  :: Reported (log_info C "Running purge of database")
                  :: map Driven (trace d)
                  ++ [Reported (log_info C ("Purged " ++ decimal n ++ " forms"))]))).
Proof.
  intros W P D R C getenv w w1 w2 w3 r d Hh Hl He Hs.
  destruct (purge_result_keys W P D
              match getenv "DbConnectionString" with
              | Some s => PyStr s
              | None => PyNone
              end purge_procedure w2) as (r' & d' & He' & _ & Ht).
  rewrite He in He'. inversion He'; subst r' d'. destruct (Ht Hs) as [n Hn].
  exists n. split; [exact Hn |]. intros Hd Hl2.
  unfold main, run_report, reporting, purge_call, bind, eval, heartbeat_running, log_info.
  cbn. rewrite Hh. cbn. rewrite Hl. cbn. rewrite He. cbn. rewrite Hn.
  unfold int_repr. apply Nat.ltb_ge in Hd. rewrite Hd. cbn.
  cbn in Hl2. rewrite Hl2. reflexivity.
Qed.

Lemma main_logs_rowcount_witness :
  main sample_platform (quiet_driver 12 []) (quiet_reporting sample_world)
    sample_config (fun _ => Some "dsn") (mkSite fresh_world [])
  = (Return tt,
     mkSite (mkWorld 1 1)
       [ Reported (Heartbeat "SQL data base purge" "RUNNING" "" (PyStr "PROD"));
         Reported (LogEvent (PyStr "LogDb") "INFO" "Running purge of database"
                     (PyStr "purge") (PyStr "PROD"));
         Driven (EvConnect (PyStr "dsn")); Driven EvCursor;
         Driven (EvExecute "EXEC RPA.journalizing.sp_UpdatePurgeMarker" []);
         Driven (EvPrint "Should be executed"); Driven EvCommit;
         Driven (EvCursorExit false); Driven (EvConnectionExit false);
         Reported (LogEvent (PyStr "LogDb") "INFO" "Purged 12 forms"
                     (PyStr "purge") (PyStr "PROD")) ]).
Proof.
  destruct (main_logs_rowcount sample_world sample_platform (quiet_driver 12 [])
              (quiet_reporting sample_world) sample_config (fun _ => Some "dsn")
              fresh_world fresh_world fresh_world (mkWorld 1 1)
              (mkResult true None (Some 12))
              (mkOutside (mkWorld 1 1)
                 [ EvConnect (PyStr "dsn"); EvCursor;
                   EvExecute "EXEC RPA.journalizing.sp_UpdatePurgeMarker" [];
                   EvPrint "Should be executed"; EvCommit; EvCursorExit false;
                   EvConnectionExit false ])
              eq_refl eq_refl eq_refl eq_refl) as [n [Hn H]].
  inversion Hn; subst n. apply H; [| reflexivity].
  unfold int_max_str_digits. cbn. lia.
Defined.

(** ** Statements and commits *)

(** X15: whatever the parameters and whatever the driver does, a call sends
    at most one statement, the one built from the procedure name and the
    keys, and commits at most once, and only after that statement. *)
Theorem one_statement_then_one_commit :
  forall (W : Type) (P : Platform) (D : Driver W) (cs sp : string)
         (params : option (list (string * pyval))) (w : W),
  exists vals,
    filter touches_data (trace (snd (execute_stored_procedure P D cs sp params w))) = []
    \/ filter touches_data (trace (snd (execute_stored_procedure P D cs sp params w)))
       = [EvExecute (statement_text sp params) vals]
    \/ filter touches_data (trace (snd (execute_stored_procedure P D cs sp params w)))
       = [EvExecute (statement_text sp params) vals; EvCommit].
Proof.
  intros W P D cs sp params w.
  destruct (try_block P D cs sp params (start w)) as [o s] eqn:Ht.
  block_paths P D Ht params; cbn;
    first [ exists []; left; reflexivity
          | eexists; right; left; reflexivity
          | eexists; right; right; reflexivity ].
Qed.

(** ** JSON strings *)

Lemma json_unescape_char :
  forall c r,
    json_unescape (json_escape_char false c ++ r) = String c (json_unescape r).
Proof.
  intros c r. destruct c as [[] [] [] [] [] [] [] []]; reflexivity.
Qed.

Lemma json_unescape_escape :
  forall s r, json_unescape (json_escape false s ++ r) = s ++ json_unescape r.
Proof.
  induction s as [| c s IH]; intros r; cbn [json_escape String.append]; [reflexivity |].
  now rewrite append_assoc, json_unescape_char, IH.
Qed.

Lemma append_one_cancel :
  forall (a b : string) (c : ascii),
    a ++ String c EmptyString = b ++ String c EmptyString -> a = b.
Proof.
  induction a as [| x a IH]; intros [| y b] c H; cbn in H.
  - reflexivity.
  - inversion H as [[Hx Hb]]. destruct b; discriminate.
  - inversion H as [[Hx Ha]]. destruct a; discriminate.
  - inversion H; subst. f_equal. eapply IH. eassumption.
Qed.

(** X16: [json.dumps(s, ensure_ascii=False)] loses nothing of a string: two
    strings with the same JSON text are the same string, and so are two
    strings whose texts agree inside a one-element list or under the same
    key of a one-entry dict. *)
Theorem json_text_determines_string :
  forall (P : Platform) (s1 s2 : string),
    (json_dumps P false (PyStr s1) = json_dumps P false (PyStr s2) -> s1 = s2)
    /\ (json_dumps P false (PyList [PyStr s1]) = json_dumps P false (PyList [PyStr s2]) ->
        s1 = s2)
    /\ (forall k,
           json_dumps P false (PyDict [(PyStr k, PyStr s1)])
           = json_dumps P false (PyDict [(PyStr k, PyStr s2)]) ->
           s1 = s2).
Proof.
  assert (Hbody : forall a b r1 r2,
             json_escape false a ++ r1 = json_escape false b ++ r2 ->
             a ++ json_unescape r1 = b ++ json_unescape r2).
  { intros a b r1 r2 H. rewrite <- !json_unescape_escape. now rewrite H. }
  intros P s1 s2. split; [| split].
  - intros H. cbn in H. inversion H as [H1].
    apply Hbody in H1. cbn in H1. exact (append_one_cancel _ _ _ H1).
  - intros H. cbn in H. inversion H as [H1].
    rewrite !append_assoc in H1. apply Hbody in H1. cbn in H1.
    apply (append_one_cancel _ _ "034"%char).
    apply (append_one_cancel _ _ "]"%char).
    rewrite !append_assoc. exact H1.
  - intros k H. cbn in H. inversion H as [H1].
    rewrite !append_assoc in H1.
    assert (H2 : forall a b c : string, a ++ b = a ++ c -> b = c).
    { induction a; intros b c Hbc; cbn in Hbc; [exact Hbc |].
      inversion Hbc. eauto. }
    apply H2 in H1. cbn in H1. inversion H1 as [H3].
    rewrite !append_assoc in H3. apply Hbody in H3. cbn in H3.
    apply (append_one_cancel _ _ "034"%char).
    apply (append_one_cancel _ _ "}"%char).
    rewrite !append_assoc. exact H3.
Qed.
